(** * The FPL e-ink statistics engine: a shallow embedding and its properties

    The two source files are [data_setup.py] (collection) and the analysis and
    rendering script with [FPLAnalyzer] and [FPLDisplay].  The JSON documents
    are typed records; a field read with [dict.get] is an [option], a field
    read with [d['k']] is a plain field.  The two enrichments of a standings
    entry that the collection script stores as JSON [null] when their
    request fails (the season history and the gameweek record) are
    [option]s of their own: [Some None] is a stored [null].  Python integers
    are [Z]; the result of a true division is an IEEE binary64 float
    ([PrimFloat.float]); an exception is the [Raise] branch of [result]. *)

From Stdlib Require Import ZArith Qcanon PrimFloat SpecFloat FloatOps.
From stdpp Require Import base option list sorting gmap strings pretty.

Local Open Scope Z_scope.

(** ** Python's run-time behaviour used by the scripts *)

Module Py.

Inductive exn :=
  | ValueError | KeyError | IndexError | StopIteration | ZeroDivisionError
  | AttributeError | TypeError.

Inductive result (A : Type) :=
  | Ok (a : A)
  | Raise (e : exn).
Arguments Ok {A} a.
Arguments Raise {A} e.

Definition bind {A B} (r : result A) (k : A → result B) : result B :=
  match r with
  | Ok a => k a
  | Raise e => Raise e
  end.

Definition raises {A} (r : result A) : Prop :=
  match r with Ok _ => False | Raise _ => True end.

(** [for x in l: acc = body(acc, x)] where the body may raise. *)
Fixpoint for_each {A S} (body : S → A → result S) (l : list A) (acc : S)
    : result S :=
  match l with
  | [] => Ok acc
  | x :: l' => bind (body acc x) (for_each body l')
  end.

(** Truth value of [d.get('flag')] for a JSON boolean: a missing key gives
    [None], which is false. *)
Definition truthy (o : option bool) : bool :=
  match o with
  | Some b => b
  | None => false
  end.

(** A number as Python holds it: [x / y if y else 0] is a float on one
    branch and the integer 0 on the other. *)
Inductive num :=
  | Int (z : Z)
  | Float (f : float).

(** [float(z)] for an integer: round to nearest, ties to even (Python
    refuses an integer beyond the range of a float; scores, prices and
    strengths are nowhere near). *)
Definition float_of_int (z : Z) : float :=
  SF2Prim (binary_normalize 53 1024 z 0 false).

(** [a / b] on two integers; the quotient of the two conversions is the
    correctly rounded quotient while both are below 2^53 in magnitude. *)
Definition truediv (a b : Z) : result float :=
  if decide (b = 0) then Raise ZeroDivisionError
  else Ok (PrimFloat.div (float_of_int a) (float_of_int b)).

Definition to_float (n : num) : float :=
  match n with
  | Int z => float_of_int z
  | Float f => f
  end.

(** [x - y] with the usual promotion to float. *)
Definition sub (x y : num) : num :=
  match x, y with
  | Int a, Int b => Int (a - b)
  | _, _ => Float (PrimFloat.sub (to_float x) (to_float y))
  end.

(** [d.get('k', dflt)] on the value [d] found under a key whose default is
    the empty dictionary: [None] is that default (no key [k], so [dflt]),
    [Some None] is a JSON [null], which has no [get], and [Some (Some x)] is
    a dictionary whose field [k] is read. *)
Definition get_of {D A} (d : option (option D)) (field : D → option A)
    : result (option A) :=
  match d with
  | None => Ok None
  | Some None => Raise AttributeError
  | Some (Some x) => Ok (field x)
  end.

(** [next((x for x in l if p(x)), None)]. *)
Definition next_or_none {A} (p : A → bool) (l : list A) : option A :=
  List.find p l.

(** [next(i for i, x in enumerate(l, start=1) if p(x))]: without a default
    an exhausted generator raises [StopIteration]. *)
Fixpoint next_index_from {A} (p : A → bool) (l : list A) (i : Z) : result Z :=
  match l with
  | [] => Raise StopIteration
  | x :: l' => if p x then Ok i else next_index_from p l' (i + 1)
  end.

(** [l[i]] with Python's negative indices. *)
Definition getitem {A} (l : list A) (i : Z) : result A :=
  let n := Z.of_nat (length l) in
  let j := if decide (i < 0) then n + i else i in
  if decide (0 ≤ j < n) then
    match l !! Z.to_nat j with
    | Some x => Ok x
    | None => Raise IndexError
    end
  else Raise IndexError.

(** [l[i:j]] for [0 ≤ i ≤ j]. *)
Definition slice {A} (l : list A) (i j : nat) : list A :=
  take (j - i) (drop i l).

(** [range(0, n, step)]. *)
Definition range_step (n step : nat) : list nat :=
  (λ k, k * step)%nat <$> seq 0 ((n + step - 1) `div` step)%nat.

Section keyed.
Context {A K : Type} (R : relation K) `{!RelDecision R}.
Context (key : A → K).

(** [max(l, key=key)]: the first element whose key no later element
  exceeds; the running best is replaced only by a strictly larger key. *)
Definition max_step (best x : A) : A :=
  if decide (R (key x) (key best)) then best else x.

Definition max_by (l : list A) : result A :=
  match l with
  | [] => Raise ValueError
  | x :: l' => Ok (foldl max_step x l')
  end.

(** [max(l, key=key, default=None)]. *)
Definition max_by_default (l : list A) : option A :=
  match l with
  | [] => None
  | x :: l' => Some (foldl max_step x l')
  end.

(** [sorted(l, key=key, reverse=True)].  Python's sort is stable, also
  with [reverse=True]: elements with equal keys stay in their original
  order.  The stable descending order is computed here by insertion
  from the right: [x] is put in front of the first element whose key
  does not exceed its own. *)
Fixpoint insert_desc (x : A) (l : list A) : list A :=
  match l with
  | [] => [x]
  | y :: l' =>
      if decide (R (key y) (key x)) then x :: y :: l'
      else y :: insert_desc x l'
  end.

Definition sorted_rev (l : list A) : list A :=
  foldr insert_desc [] l.
End keyed.

End Py.

#[global] Instance result_ret : MRet Py.result := @Py.Ok.
#[global] Instance result_bind : MBind Py.result := λ A B k r, Py.bind r k.
#[global] Instance result_fmap : FMap Py.result :=
  λ A B f r, Py.bind r (λ a, Py.Ok (f a)).


(** ** The two JSON documents *)

Module Player.
Record t := mk {
  id : Z;
  web_name : string;
  element_type : Z;
  team : Z;
  (** [form] arrives as a decimal string and is only read as
      [float(x['form'])]; the field holds the rational value of that float,
      on which the order of floats is the order of rationals. *)
  form : Qc;
  transfers_in_event : Z;
  event_points : Z
}.
End Player.

Module Team.
Record t := mk {
  id : Z;
  name : string;
  strength_overall_home : Z;
  strength_overall_away : Z;
  strength_attack_home : Z;
  strength_attack_away : Z;
  strength_defence_home : Z;
  strength_defence_away : Z
}.
End Team.

Module Event.
Record t := mk {
  id : Z;
  is_current : option bool
}.
End Event.

Module Fixture.
Record t := mk {
  team_h : Z;
  team_a : Z
}.
End Fixture.

Module Bootstrap.
Record t := mk {
  elements : option (list Player.t);
  teams : option (list Team.t);
  events : option (list Event.t);
  fixtures_next_gw : option (list Fixture.t)
}.
End Bootstrap.

Module Pick.
Record t := mk {
  element : Z;
  position : Z;
  is_captain : option bool;
  multiplier : Z
}.
End Pick.

Module EntryHistory.
Record t := mk {
  points : option Z;
  event_transfers : option Z;
  value : option Z;
  bank : option Z
}.
End EntryHistory.

Module GwData.
Record t := mk {
  entry_history : option EntryHistory.t;
  picks : option (list Pick.t);
  active_chip : option string
}.
End GwData.

Module HistoryRow.
Record t := mk { points : Z }.
End HistoryRow.

Module History.
Record t := mk { current : option (list HistoryRow.t) }.
End History.

(** [history] and the values of [gameweek_data] are what the collection
    script stored: the fetched dictionary, or [None] for the JSON [null] of
    a failed request. *)
Module Manager.
Record t := mk {
  entry_name : string;
  total : Z;
  rank_sort : option Z;
  last_rank : option Z;
  gameweek_data : option (gmap string (option GwData.t));
  history : option (option History.t)
}.
End Manager.

Module Standings.
Record t := mk { results : option (list Manager.t) }.
End Standings.

Module League.
Record t := mk { standings : option Standings.t }.
End League.

(** ** data_setup.py *)

(** [get_current_gameweek(bootstrap_data)]: the id of the first event whose
    [is_current] is true, [None] when the loop runs out. *)
Fixpoint first_current (evs : list Event.t) : option Z :=
  match evs with
  | [] => None
  | ev :: evs' =>
      if Py.truthy (Event.is_current ev) then Some (Event.id ev)
      else first_current evs'
  end.

Definition get_current_gameweek (bootstrap_data : Bootstrap.t) : option Z :=
  first_current (default [] (Bootstrap.events bootstrap_data)).

(** ** calculate_gw_average *)

(** One turn of the loop over the managers; the state is
    [(total_points, count)]. *)
Definition gw_average_step (gw : Z) (acc : Z * Z) (manager : Manager.t)
    : Py.result (Z * Z) :=
  match Manager.history manager with
  | None => mret acc
  | Some None => Py.Raise Py.TypeError
  | Some (Some history) =>
      match History.current history with
      | Some current =>
          if decide (gw - 1 < Z.of_nat (length current)) then
            row ← Py.getitem current (gw - 1);
            mret (acc.1 + HistoryRow.points row, acc.2 + 1)
          else mret acc
      | None => mret acc
      end
  end.

Definition calculate_gw_average (mini_league_data : League.t) (gw : Z)
    : Py.result Py.num :=
  match League.standings mini_league_data ≫= Standings.results with
  | None => Py.Raise Py.KeyError
  | Some results =>
      acc ← Py.for_each (gw_average_step gw) results (0, 0);
      if decide (acc.2 ≠ 0) then Py.Float <$> Py.truediv acc.1 acc.2
      else mret (Py.Int 0)
  end.

(** ** class FPLAnalyzer *)

Record FPLAnalyzer := {
  player_data : Bootstrap.t;
  league_data : League.t;
  current_gw : Z;
  current_gw_event : Event.t;
  player_id_to_name : gmap Z string;
  player_id_to_points : gmap Z Z;
  player_id_to_position : gmap Z Z;
  teams_by_id : gmap Z Team.t
}.

(** [{k(x): v(x) for x in l}]: a later entry with the same key replaces an
    earlier one. *)
Definition dict_of {A V} (k : A → Z) (v : A → V) (l : list A) : gmap Z V :=
  foldl (λ m x, <[k x := v x]> m) ∅ l.

(** [d.get(k, dflt)] where [k] may be [None], which is no key of [d]. *)
Definition get_or {V} (d : gmap Z V) (k : option Z) (dflt : V) : V :=
  default dflt (k ≫= (d !!.)).

(** [load_data], from the two documents read from disk. *)
Definition load_data (player_data : Bootstrap.t) (league_data : League.t)
    : Py.result FPLAnalyzer :=
  match Bootstrap.events player_data with
  | None => Py.Raise Py.KeyError
  | Some events =>
      match Py.next_or_none (λ ev, Py.truthy (Event.is_current ev)) events with
      | None => Py.Raise Py.ValueError
      | Some ev =>
          let players := default [] (Bootstrap.elements player_data) in
          mret {|
            player_data := player_data;
            league_data := league_data;
            current_gw := Event.id ev;
            current_gw_event := ev;
            player_id_to_name := dict_of Player.id Player.web_name players;
            player_id_to_points :=
              dict_of Player.id Player.event_points players;
            player_id_to_position :=
              dict_of Player.id Player.element_type players;
            teams_by_id :=
              dict_of Team.id id (default [] (Bootstrap.teams player_data))
          |}
      end
  end.

(** The dictionaries the analysis methods return. *)

Module AnalyzedFixture.
Record t := mk {
  home_team : string;
  away_team : string;
  home_strength : Py.num;
  away_strength : Py.num
}.
End AnalyzedFixture.

Module ManagerDetails.
Record t := mk {
  points : Z;
  captain_name : string;
  captain_points : Z;
  transfers : Z;
  team_value : float;
  bank : float;
  top_scorer_name : string;
  top_scorer_points : Z;
  formation : string;
  chip_used : string;
  rank_movement : Z;
  manager_name : string;
  total_points : Z
}.
End ManagerDetails.

Module MyTeamAnalysis.
Record t := mk {
  my_team_name : string;
  my_points : Z;
  leader_points : Z;
  avg_points_total : Py.num;
  position : Z;
  num_teams : Z;
  my_gw_points : Z;
  league_gw_average : Py.num;
  captain_points : Z;
  best_possible_captain_points : Z;
  captain_success_rate : float
}.
End MyTeamAnalysis.

Section methods.
Context (self : FPLAnalyzer).

Definition get_form_players : list Player.t :=
  let players := default [] (Bootstrap.elements (player_data self)) in
  take 5 (Py.sorted_rev Qcle Player.form players).

Definition get_most_transferred : list Player.t :=
  let players := default [] (Bootstrap.elements (player_data self)) in
  take 5 (Py.sorted_rev Z.le Player.transfers_in_event players).

Definition get_team_strengths : list Team.t :=
  let teams := default [] (Bootstrap.teams (player_data self)) in
  take 5 (Py.sorted_rev Z.le
            (λ x, Team.strength_overall_home x + Team.strength_overall_away x)
            teams).

(** [n / d if d else 0] *)
Definition ratio_or_zero (n d : Z) : Py.result Py.num :=
  if decide (d ≠ 0) then Py.Float <$> Py.truediv n d else mret (Py.Int 0).

(** The body of the loop over the fixtures: [analyzed_fixtures] grows by one
    entry when both teams are in [teams_by_id]. *)
Definition analyze_fixture (analyzed_fixtures : list AnalyzedFixture.t)
    (fixture : Fixture.t) : Py.result (list AnalyzedFixture.t) :=
  match teams_by_id self !! Fixture.team_h fixture,
        teams_by_id self !! Fixture.team_a fixture with
  | Some home, Some away =>
      let home_attack := Team.strength_attack_home home in
      let away_defence := Team.strength_defence_away away in
      home_strength ← ratio_or_zero home_attack away_defence;
      let away_attack := Team.strength_attack_away away in
      let home_defence := Team.strength_defence_home home in
      away_strength ← ratio_or_zero away_attack home_defence;
      mret (analyzed_fixtures ++ [{|
        AnalyzedFixture.home_team := Team.name home;
        AnalyzedFixture.away_team := Team.name away;
        AnalyzedFixture.home_strength := home_strength;
        AnalyzedFixture.away_strength := away_strength
      |}])
  | _, _ => mret analyzed_fixtures
  end.

Definition analyze_fixtures : Py.result (list (list AnalyzedFixture.t)) :=
  let fixtures := default [] (Bootstrap.fixtures_next_gw (player_data self)) in
  analyzed_fixtures ← Py.for_each analyze_fixture fixtures [];
  mret ((λ i, Py.slice analyzed_fixtures i (i + 2)) <$>
          Py.range_step (length analyzed_fixtures) 2).

Definition get_mini_league_standings : list Manager.t :=
  default [] (League.standings (league_data self) ≫= Standings.results).

(** [manager_data.get('gameweek_data', {}).get(str(self.current_gw), {})]:
    [None] stands for the empty default, [Some None] for a stored [null]. *)
Definition gw_data_lookup (manager_data : Manager.t)
    : option (option GwData.t) :=
  Manager.gameweek_data manager_data ≫= (.!! pretty (current_gw self)).

(** The gameweek record when it is a dictionary. *)
Definition gw_data_of (manager_data : Manager.t) : option GwData.t :=
  mjoin (gw_data_lookup manager_data).

Definition points_of (pick : Pick.t) : Z :=
  get_or (player_id_to_points self) (Some (Pick.element pick)) 0.

Definition position_code_of (pick : Pick.t) : Z :=
  get_or (player_id_to_position self) (Some (Pick.element pick)) 0.

Definition is_captain (pick : Pick.t) : bool :=
  Py.truthy (Pick.is_captain pick).

(** [sum(1 for pick in starting_players if position code == code)] *)
Definition count_code (code : Z) (starting_players : list Pick.t) : nat :=
  length (filter (λ pick, position_code_of pick = code) starting_players).

Definition get_manager_details (manager_data : Manager.t)
    : Py.result ManagerDetails.t :=
  let gw_data := gw_data_lookup manager_data in
  entry_history ← Py.get_of gw_data GwData.entry_history;
  picks ← default [] <$> Py.get_of gw_data GwData.picks;
  let captain_pick := Py.next_or_none is_captain picks in
  let captain_id := Pick.element <$> captain_pick in
  let captain_multiplier := from_option Pick.multiplier 1 captain_pick in
  let captain_name := get_or (player_id_to_name self) captain_id "Unknown" in
  let captain_points :=
    get_or (player_id_to_points self) captain_id 0 * captain_multiplier in
  top ← match picks with
        | [] => mret ("Unknown", 0)
        | _ =>
            best ← Py.max_by Z.le points_of picks;
            let top_scorer_id := Some (Pick.element best) in
            mret (get_or (player_id_to_name self) top_scorer_id "Unknown",
                  get_or (player_id_to_points self) top_scorer_id 0)
        end;
  let starting_players := filter (λ p, Pick.position p ≤ 11) picks in
  let formation :=
    pretty (count_code 2 starting_players) +:+ "-" +:+
    pretty (count_code 3 starting_players) +:+ "-" +:+
    pretty (count_code 4 starting_players) in
  team_value ←
    Py.truediv (default 0 (entry_history ≫= EntryHistory.value)) 10;
  bank ← Py.truediv (default 0 (entry_history ≫= EntryHistory.bank)) 10;
  chip_used ← Py.get_of gw_data GwData.active_chip;
  mret {|
    ManagerDetails.points := default 0 (entry_history ≫= EntryHistory.points);
    ManagerDetails.captain_name := captain_name;
    ManagerDetails.captain_points := captain_points;
    ManagerDetails.transfers :=
      default 0 (entry_history ≫= EntryHistory.event_transfers);
    ManagerDetails.team_value := team_value;
    ManagerDetails.bank := bank;
    ManagerDetails.top_scorer_name := top.1;
    ManagerDetails.top_scorer_points := top.2;
    ManagerDetails.formation := formation;
    ManagerDetails.chip_used := default "None" chip_used;
    ManagerDetails.rank_movement :=
      default 0 (Manager.rank_sort manager_data) -
      default 0 (Manager.last_rank manager_data);
    ManagerDetails.manager_name := Manager.entry_name manager_data;
    ManagerDetails.total_points := Manager.total manager_data
  |}.

Definition my_team_name : string := "404error.log".

Definition is_my_team (m : Manager.t) : bool :=
  bool_decide (Manager.entry_name m = my_team_name).

(** The captaincy block of [get_my_team_analysis], on the picks of the
    self team. *)
Definition my_captain_points (picks : list Pick.t) : Z :=
  match Py.next_or_none is_captain picks with
  | Some captain_pick =>
      let c_id := Pick.element captain_pick in
      let c_mult := Pick.multiplier captain_pick in
      get_or (player_id_to_points self) (Some c_id) 0 * c_mult
  | None => 0
  end.

Definition best_player_points (picks : list Pick.t) : Z :=
  match picks with
  | [] => 0
  | _ =>
      let starters := filter (λ p, Pick.position p ≤ 11) picks in
      match Py.max_by_default Z.le points_of starters with
      | Some best_player => points_of best_player
      | None => 0
      end
  end.

Definition captain_success_rate
    (captain_points best_possible_captain_points : Z) : Py.result float :=
  if decide (0 < best_possible_captain_points) then
    q ← Py.truediv captain_points best_possible_captain_points;
    mret (PrimFloat.mul q (Py.float_of_int 100))
  else mret PrimFloat.zero.

Definition get_my_team_analysis : Py.result (option MyTeamAnalysis.t) :=
  let standings := get_mini_league_standings in
  match Py.next_or_none is_my_team standings with
  | None => mret None
  | Some my_team =>
      let my_points := Manager.total my_team in
      leader_points ←
        match standings with
        | [] => mret 0
        | _ => Manager.total <$> Py.max_by Z.le Manager.total standings
        end;
      let total_all := foldl Z.add 0 (Manager.total <$> standings) in
      avg_points_total ←
        match standings with
        | [] => mret (Py.Int 0)
        | _ =>
            Py.Float <$> Py.truediv total_all (Z.of_nat (length standings))
        end;
      let sorted_by_points := Py.sorted_rev Z.le Manager.total standings in
      position ← Py.next_index_from is_my_team sorted_by_points 1;
      gw_avg ← calculate_gw_average (league_data self) (current_gw self);
      let gw_data := gw_data_lookup my_team in
      picks ← default [] <$> Py.get_of gw_data GwData.picks;
      entry_history ← Py.get_of gw_data GwData.entry_history;
      let my_gw_points := default 0 (entry_history ≫= EntryHistory.points) in
      let captain_points := my_captain_points picks in
      let best_possible_captain_points := best_player_points picks * 2 in
      rate ← captain_success_rate captain_points best_possible_captain_points;
      mret (Some {|
        MyTeamAnalysis.my_team_name := my_team_name;
        MyTeamAnalysis.my_points := my_points;
        MyTeamAnalysis.leader_points := leader_points;
        MyTeamAnalysis.avg_points_total := avg_points_total;
        MyTeamAnalysis.position := position;
        MyTeamAnalysis.num_teams := Z.of_nat (length standings);
        MyTeamAnalysis.my_gw_points := my_gw_points;
        MyTeamAnalysis.league_gw_average := gw_avg;
        MyTeamAnalysis.captain_points := captain_points;
        MyTeamAnalysis.best_possible_captain_points :=
          best_possible_captain_points;
        MyTeamAnalysis.captain_success_rate := rate
      |})
  end.

End methods.

(** ** class FPLDisplay *)

(** A page is the blank image with the drawing calls made on it, in order. *)
Inductive font := font24 | font18 | font16 | font14 | font12.

Inductive draw_op :=
  | draw_text (xy : Z * Z) (text : string) (f : font)
  | draw_line (x0 y0 x1 y1 : Z).

Definition image := list draw_op.

Section display.
(** [self.width] comes from the e-paper driver; [format_f sign prec x] is
    Python's [format(x, '+.{prec}f')] (with [sign]) or [format(x, '.{prec}f')]
    applied to a float. *)
Variable width : Z.
Variable format_f : bool → nat → float → string.

Definition create_page : image := [].

Definition draw_title (text : string) : image :=
  [draw_text (10, 5) text font24; draw_line 10 35 (width - 10) 35].

(** [for line in lines: draw.text((10, y), line, font); y += step] *)
Fixpoint draw_lines (f : font) (step : Z) (lines : list string) (y : Z)
    : image :=
  match lines with
  | [] => []
  | line :: lines' =>
      draw_text (10, y) line f :: draw_lines f step lines' (y + step)
  end.

Definition my_team_lines (analysis : MyTeamAnalysis.t) : list string :=
  let my_points := MyTeamAnalysis.my_points analysis in
  let my_gw_points := MyTeamAnalysis.my_gw_points analysis in
  let league_gw_average := MyTeamAnalysis.league_gw_average analysis in
  [ "Team: " +:+ MyTeamAnalysis.my_team_name analysis;
    "Total Points: " +:+ pretty my_points;
    "League Pos: " +:+ pretty (MyTeamAnalysis.position analysis) +:+ " of "
      +:+ pretty (MyTeamAnalysis.num_teams analysis);
    "Leader Diff: "
      +:+ pretty (MyTeamAnalysis.leader_points analysis - my_points);
    "vs. Average: "
      +:+ format_f true 1
            (Py.to_float
               (Py.sub (Py.Int my_points)
                  (MyTeamAnalysis.avg_points_total analysis)));
    "";
    "Weekly Analysis:";
    "  This GW's Pts: " +:+ pretty my_gw_points;
    "  League GW Avg: " +:+ format_f false 1 (Py.to_float league_gw_average);
    "  vs. GW Avg: "
      +:+ format_f true 1
            (Py.to_float (Py.sub (Py.Int my_gw_points) league_gw_average));
    "";
    "Captaincy Analysis:";
    "  Actual Captain: " +:+ pretty (MyTeamAnalysis.captain_points analysis);
    "  Best Captain: "
      +:+ pretty (MyTeamAnalysis.best_possible_captain_points analysis);
    "  Success Rate: "
      +:+ format_f false 1 (MyTeamAnalysis.captain_success_rate analysis)
      +:+ "%" ].

Definition create_my_team_page (analyzer : FPLAnalyzer) : Py.result image :=
  analysis ← get_my_team_analysis analyzer;
  let image := create_page ++ draw_title "My Team Analysis" in
  let y := 45 in
  match analysis with
  | None =>
      let lines := ["404error.log not found"; "in this league."] in
      mret (image ++ draw_lines font16 25 lines y)
  | Some analysis =>
      mret (image ++ draw_lines font16 22 (my_team_lines analysis) y)
  end.

End display.

(** ** The other pages of FPLDisplay *)

Section display_pages.
Variable width : Z.
Variable format_f : bool → nat → float → string.

(** [analyzer.teams_by_id.get(player['team'], {}).get('name', '?')] *)
Definition team_label (analyzer : FPLAnalyzer) (team_id : Z) : string :=
  default "?" (Team.name <$> teams_by_id analyzer !! team_id).

Definition transfers_line (analyzer : FPLAnalyzer) (player : Player.t)
    : string :=
  let team_name := team_label analyzer (Player.team player) in
  Player.web_name player +:+ " (" +:+ team_name +:+ "): "
    +:+ pretty (Player.transfers_in_event player).

Definition create_transfers_page (analyzer : FPLAnalyzer) : image :=
  let image := create_page ++ draw_title width "Most Transferred In" in
  let y := 45 in
  image ++
  draw_lines font16 25
    (transfers_line analyzer <$> get_most_transferred analyzer) y.

Definition team_strength_line (t : Team.t) : string :=
  let strength := Team.strength_overall_home t + Team.strength_overall_away t in
  Team.name t +:+ ": " +:+ pretty strength.

Definition create_team_strength_page (analyzer : FPLAnalyzer) : image :=
  let image := create_page ++ draw_title width "Team Strength" in
  let y := 45 in
  image ++
  draw_lines font18 25 (team_strength_line <$> get_team_strengths analyzer) y.

Definition manager_lines (manager_details : ManagerDetails.t) : list string :=
  [ "Points: " +:+ pretty (ManagerDetails.points manager_details);
    "Captain: " +:+ ManagerDetails.captain_name manager_details +:+ " ("
      +:+ pretty (ManagerDetails.captain_points manager_details) +:+ ")";
    "Transfers: " +:+ pretty (ManagerDetails.transfers manager_details);
    "Team Value: "
      +:+ format_f false 1 (ManagerDetails.team_value manager_details);
    "Top Scorer: " +:+ ManagerDetails.top_scorer_name manager_details +:+ " ("
      +:+ pretty (ManagerDetails.top_scorer_points manager_details) +:+ ")";
    "Formation: " +:+ ManagerDetails.formation manager_details;
    "Chip: " +:+ ManagerDetails.chip_used manager_details;
    "Rank Move: " +:+ pretty (ManagerDetails.rank_movement manager_details);
    "Total Points: " +:+ pretty (ManagerDetails.total_points manager_details)
  ].

Definition create_manager_page (manager_details : ManagerDetails.t) : image :=
  let image :=
    create_page ++
    draw_title width
      ("Manager: " +:+ ManagerDetails.manager_name manager_details) in
  let y := 45 in
  image ++ draw_lines font16 22 (manager_lines manager_details) y.

(** The four [draw.text] calls for one fixture, and [y] after them. *)
Definition draw_fixture (fixture : AnalyzedFixture.t) (y : Z) : image * Z :=
  let home := AnalyzedFixture.home_team fixture in
  let away := AnalyzedFixture.away_team fixture in
  let line1 := home +:+ " (H) vs" in
  let line2 := away +:+ " (A)" in
  let y1 := y + 20 in
  let y2 := y1 + 25 in
  let home_str :=
    home +:+ " Atk: "
      +:+ format_f false 2 (Py.to_float (AnalyzedFixture.home_strength fixture)) in
  let away_str :=
    away +:+ " Atk: "
      +:+ format_f false 2 (Py.to_float (AnalyzedFixture.away_strength fixture)) in
  let y3 := y2 + 20 in
  ([ draw_text (10, y) line1 font16; draw_text (10, y1) line2 font16;
     draw_text (20, y2) home_str font14; draw_text (20, y3) away_str font14 ],
   y3 + 35).

(** [for fixture in chunk: ...] *)
Fixpoint draw_fixtures (chunk : list AnalyzedFixture.t) (y : Z) : image :=
  match chunk with
  | [] => []
  | fixture :: chunk' =>
      let (ops, y') := draw_fixture fixture y in
      ops ++ draw_fixtures chunk' y'
  end.

Definition fixtures_title (next_gw : Z) (i n : nat) : string :=
  "GW" +:+ pretty next_gw +:+ " Fixtures (" +:+ pretty (i + 1)%nat +:+ "/"
    +:+ pretty n +:+ ")".

Definition create_fixtures_pages (analyzer : FPLAnalyzer)
    : Py.result (list image) :=
  fixture_pages ← analyze_fixtures analyzer;
  let next_gw := current_gw analyzer + 1 in
  mret (imap
          (λ i chunk,
             create_page ++
             draw_title width (fixtures_title next_gw i (length fixture_pages))
             ++ draw_fixtures chunk 45)
          fixture_pages).

End display_pages.

(** ** data_setup.py: the collection run *)

(** A fixture as the fixtures endpoint sends it: [event] is the gameweek it
    is scheduled in, [null] while unscheduled.  The analysis reads only the
    two team ids of a stored fixture. *)
Module ApiFixture.
Record t := mk {
  event : option Z;
  team_h : Z;
  team_a : Z
}.
Definition to_fixture (f : t) : Fixture.t := Fixture.mk (team_h f) (team_a f).
End ApiFixture.

Definition LEAGUE_ID : Z := 405323.

(** What a run of [main] leaves behind: the message of the error branch it
    took, or the two documents it wrote. *)
Inductive collected :=
  | Failed (message : string)
  | Saved (player_data_file : Bootstrap.t) (league_data_file : League.t).

Section collector.
(** The HTTP side of the script: what [fetch_bootstrap_data()] and
    [fetch_data] on the fixtures URL return ([None] on a status other than
    200), and what [retrieve_mini_league_data] assembles from its requests.
    A fetched document is a non-empty dictionary. *)
Variable fetch_bootstrap_data : option Bootstrap.t.
Variable fetch_all_fixtures : option (list ApiFixture.t).
Variable retrieve_mini_league_data : Z → Z → option League.t.

Definition fetch_fixtures (gw : Z) : list ApiFixture.t :=
  match fetch_all_fixtures with
  | None | Some [] => []
  | Some all_fixtures =>
      filter (λ f, ApiFixture.event f = Some gw) all_fixtures
  end.

Definition main : collected :=
  match fetch_bootstrap_data with
  | None => Failed "Error: Could not fetch bootstrap data."
  | Some bootstrap_data =>
      match get_current_gameweek bootstrap_data with
      | None => Failed "Error: Could not determine current gameweek."
      | Some current_gw =>
          if decide (current_gw = 0) then
            Failed "Error: Could not determine current gameweek."
          else
            let next_gw := current_gw + 1 in
            let next_gw_fixtures := fetch_fixtures next_gw in
            let bootstrap_data :=
              Bootstrap.mk (Bootstrap.elements bootstrap_data)
                (Bootstrap.teams bootstrap_data)
                (Bootstrap.events bootstrap_data)
                (Some (ApiFixture.to_fixture <$> next_gw_fixtures)) in
            match retrieve_mini_league_data LEAGUE_ID current_gw with
            | None => Failed "Error: Could not fetch mini-league data."
            | Some mini_league_data => Saved bootstrap_data mini_league_data
            end
      end
  end.

End collector.

(** ** Statements used below *)

(** What it means for [res] to be the first [n] of [l] in descending order of
    [key], ties in their original order. *)
Record top_n_by {A K} (R : relation K) `{!EqDecision K} (key : A → K)
    (n : nat) (l res : list A) : Prop := {
  top_length : length res = min n (length l);
  top_sorted : StronglySorted (λ x y, R (key y) (key x)) res;
  top_stable : ∀ k,
    filter (λ x, key x = k) res `prefix_of` filter (λ x, key x = k) l;
  top_best : ∃ rest,
    res ++ rest ≡ₚ l ∧ ∀ x y, x ∈ res → y ∈ rest → R (key y) (key x)
}.

(** A standings entry as the collection script left it: the record stored
    under gameweek [gw] is a JSON [null]; the season history is a JSON
    [null]. *)
Definition record_is_null (gw : Z) (m : Manager.t) : Prop :=
  Manager.gameweek_data m ≫= (.!! pretty gw) = Some None.

Definition history_is_null (m : Manager.t) : Prop :=
  Manager.history m = Some None.



(** A strength ratio, "treated as 0 when the denominator is 0", and the
    entry a fixture contributes when both of its teams are known. *)
Definition strength_ratio (attack defence : Z) : Py.num :=
  if decide (defence = 0) then Py.Int 0
  else Py.Float
         (PrimFloat.div (Py.float_of_int attack) (Py.float_of_int defence)).

Definition analyzed_entry (self : FPLAnalyzer) (fixture : Fixture.t)
    : option AnalyzedFixture.t :=
  home ← teams_by_id self !! Fixture.team_h fixture;
  away ← teams_by_id self !! Fixture.team_a fixture;
  Some {|
    AnalyzedFixture.home_team := Team.name home;
    AnalyzedFixture.away_team := Team.name away;
    AnalyzedFixture.home_strength :=
      strength_ratio (Team.strength_attack_home home)
        (Team.strength_defence_away away);
    AnalyzedFixture.away_strength :=
      strength_ratio (Team.strength_attack_away away)
        (Team.strength_defence_home home)
  |}.

(** The fixture analysis as the specification words it: every fixture of
    the list has an entry, in order, and a team missing from the lookup is
    shown under some placeholder label. *)
Definition every_fixture_analyzed (self : FPLAnalyzer) : Prop :=
  let fixtures := default [] (Bootstrap.fixtures_next_gw (player_data self)) in
  let label placeholder team_id :=
    default placeholder (Team.name <$> teams_by_id self !! team_id) in
  ∃ (placeholder : string) pages,
    analyze_fixtures self = Py.Ok pages ∧
    Forall2
      (λ fixture entry,
         AnalyzedFixture.home_team entry
           = label placeholder (Fixture.team_h fixture) ∧
         AnalyzedFixture.away_team entry
           = label placeholder (Fixture.team_a fixture))
      fixtures (concat pages).

(** The success rate as the specification words it: 0 when the denominator
    [2 × best] is 0, and captain points over the denominator, times 100,
    otherwise. *)
Definition success_rate_as_claimed (r : MyTeamAnalysis.t) : Prop :=
  let captain_points := MyTeamAnalysis.captain_points r in
  let denominator := MyTeamAnalysis.best_possible_captain_points r in
  MyTeamAnalysis.captain_success_rate r =
  if decide (denominator = 0) then PrimFloat.zero
  else PrimFloat.mul
         (PrimFloat.div (Py.float_of_int captain_points)
            (Py.float_of_int denominator))
         (Py.float_of_int 100).

(** The row of gameweek [gw] in a manager's season history, when the
    history has one. *)
Definition gw_row (gw : Z) (manager : Manager.t) : option HistoryRow.t :=
  history ← mjoin (Manager.history manager);
  current ← History.current history;
  current !! Z.to_nat (gw - 1).

(** A drawing call that writes text with its top edge between [lo] and
    [hi]. *)
Definition text_within (lo hi : Z) (op : draw_op) : Prop :=
  match op with
  | draw_text (_, y) _ _ => lo ≤ y ≤ hi
  | draw_line _ _ _ _ => False
  end.

(** ** A small league used to run the definitions *)

Module Sample.

Definition teams : list Team.t :=
  [ Team.mk 1 "ARS" 1300 1350 1200 1250 1300 1310;
    Team.mk 2 "AVL" 1100 1150 1100 650 1150 0 ].

(** Fifteen players, ids 1..15; the starters are a keeper, four defenders,
    four midfielders and two forwards. *)
Definition player (i code pts : Z) : Player.t :=
  Player.mk i "P" code 1 (Qc_of_Z pts) (10 * pts) pts.

Definition players : list Player.t :=
  [ player 1 1 2; player 2 2 6; player 3 2 1; player 4 2 2; player 5 2 0;
    player 6 3 8; player 7 3 3; player 8 3 2; player 9 3 7; player 10 4 5;
    player 11 4 2; player 12 1 0; player 13 2 9; player 14 3 1;
    player 15 4 0 ].

Definition events : list Event.t :=
  [ Event.mk 6 (Some false); Event.mk 7 (Some true); Event.mk 8 None ].

(** The second fixture names a team that is not in the bootstrap teams. *)
Definition fixtures : list Fixture.t := [ Fixture.mk 1 2; Fixture.mk 1 99 ].

Definition bootstrap : Bootstrap.t :=
  Bootstrap.mk (Some players) (Some teams) (Some events) (Some fixtures).

(** Slots 1..15 hold players 1..15; [captain] is the captained player and
    [mult] the multiplier on that pick. *)
Definition squad (captain mult : Z) : list Pick.t :=
  (λ i, if decide (i = captain) then Pick.mk i i (Some true) mult
        else Pick.mk i i (Some false) (if decide (i ≤ 11) then 1 else 0))
    <$> seqZ 1 15.

Definition manager (entry_name : string) (total : Z) (picks : list Pick.t)
    : Manager.t :=
  Manager.mk entry_name total (Some 2) (Some 1)
    (Some {[ "7"%string :=
               Some (GwData.mk
                       (Some (EntryHistory.mk (Some 55) (Some 1) (Some 1005)
                                (Some 7)))
                       (Some picks) None) ]})
    (Some (Some (History.mk
                   (Some (HistoryRow.mk <$> [40; 51; 38; 62; 47; 58; 55]))))).

Definition league_of (ms : list Manager.t) : League.t :=
  League.mk (Some (Standings.mk (Some ms))).

(** The state [load_data] builds from a bootstrap with [events] above. *)
Definition state (pd : Bootstrap.t) (ld : League.t) : FPLAnalyzer := {|
  player_data := pd;
  league_data := ld;
  current_gw := 7;
  current_gw_event := Event.mk 7 (Some true);
  player_id_to_name :=
    dict_of Player.id Player.web_name (default [] (Bootstrap.elements pd));
  player_id_to_points :=
    dict_of Player.id Player.event_points (default [] (Bootstrap.elements pd));
  player_id_to_position :=
    dict_of Player.id Player.element_type (default [] (Bootstrap.elements pd));
  teams_by_id := dict_of Team.id id (default [] (Bootstrap.teams pd))
|}.

(** Totals [100; 80; 120] for A, self, C; self captains player 10 (5 points,
    doubled) while the best starter, player 6, scored 8. *)
Definition me : Manager.t := manager "404error.log" 80 (squad 10 2).

Definition league : League.t :=
  league_of [ manager "A" 100 (squad 6 2); me; manager "C" 120 (squad 9 2) ].

Definition analyzer : FPLAnalyzer := state bootstrap league.

(** The same league with self playing a triple captain on player 6. *)
Definition me_triple : Manager.t := manager "404error.log" 80 (squad 6 3).

Definition analyzer_triple : FPLAnalyzer :=
  state bootstrap
    (league_of [ manager "A" 100 (squad 6 2); me_triple;
                 manager "C" 120 (squad 9 2) ]).

(** A league without the self team. *)
Definition analyzer_without_me : FPLAnalyzer :=
  state bootstrap
    (league_of [ manager "A" 100 (squad 6 2); manager "C" 120 (squad 9 2) ]).

(** A gameweek in which every player of the squad scored -1; self doubles
    player 1. *)
Definition bootstrap_negative : Bootstrap.t :=
  Bootstrap.mk (Some ((λ i, player i 2 (-1)) <$> seqZ 1 15)) (Some teams)
    (Some events) None.

Definition me_negative : Manager.t := manager "404error.log" 80 (squad 1 2).

Definition analyzer_negative : FPLAnalyzer :=
  state bootstrap_negative (league_of [ me_negative ]).

End Sample.

(** ** Further cases *)

Module Cases.

(** A bootstrap whose current event has id 0, and a league whose only
    entry, the self team, has an empty season history. *)
Definition bootstrap_gw0 : Bootstrap.t :=
  Bootstrap.mk None None (Some [ Event.mk 0 (Some true) ]) None.

Definition league_gw0 : League.t :=
  Sample.league_of
    [ Manager.mk "404error.log" 80 None None None
        (Some (Some (History.mk (Some [])))) ].

Definition analyzer_gw0 : FPLAnalyzer := {|
  player_data := bootstrap_gw0;
  league_data := league_gw0;
  current_gw := 0;
  current_gw_event := Event.mk 0 (Some true);
  player_id_to_name := ∅;
  player_id_to_points := ∅;
  player_id_to_position := ∅;
  teams_by_id := ∅
|}.

(** A manager whose gameweek record was stored under another gameweek. *)
Definition manager_other_gw : Manager.t :=
  Manager.mk "Late Joiner" 12 (Some 4) (Some 0)
    (Some {[ "6"%string :=
               Some (GwData.mk None (Some (Sample.squad 6 2)) None) ]})
    None.

(** What the collection script stores for an entry whose picks request
    failed, and for one whose history request failed. *)
Definition manager_null_record : Manager.t :=
  Manager.mk "No Picks" 64 (Some 3) (Some 3) (Some {[ "7"%string := None ]})
    None.

Definition manager_null_history : Manager.t :=
  Manager.mk "No History" 61 None None None (Some None).

Definition analyzer_null_record : FPLAnalyzer :=
  Sample.state Sample.bootstrap
    (Sample.league_of
       [ Sample.manager "A" 100 (Sample.squad 6 2);
         Manager.mk "404error.log" 80 None None
           (Some {[ "7"%string := None ]}) None ]).

Definition analyzer_null_history : FPLAnalyzer :=
  Sample.state Sample.bootstrap
    (Sample.league_of [ Sample.me; manager_null_history ]).

(** A player whose team is not among the bootstrap teams, and one whose
    team is. *)
Definition bootstrap_transfers : Bootstrap.t :=
  Bootstrap.mk
    (Some [ Player.mk 1 "Saka" 3 1 (Qc_of_Z 7) 5000 9;
            Player.mk 2 "Isak" 4 99 (Qc_of_Z 8) 9000 12 ])
    (Some Sample.teams) (Some Sample.events) None.

Definition analyzer_transfers : FPLAnalyzer :=
  Sample.state bootstrap_transfers Sample.league.

(** The fixtures endpoint with two gameweek-8 fixtures, one of gameweek 7
    and one unscheduled. *)
Definition all_fixtures : list ApiFixture.t :=
  [ ApiFixture.mk (Some 8) 1 2; ApiFixture.mk (Some 7) 2 1;
    ApiFixture.mk None 1 2; ApiFixture.mk (Some 8) 2 1 ].

End Cases.

(** * Properties *)

(** A decidable statement about the sample league, settled by running its
    decision procedure. *)
Ltac by_evaluation := apply (bool_decide_unpack _); vm_compute; exact I.

(** ** The stable descending sort *)

Section sorted_rev_facts.
Context {A K : Type} (R : relation K).
Context `{!RelDecision R, !PartialOrder R, !Total R, !EqDecision K}.
Context (key : A → K).

Local Abbreviation desc := (λ x y : A, R (key y) (key x)).
Local Abbreviation tie k := (λ x : A, key x = k).

Lemma insert_desc_perm x l : Py.insert_desc R key x l ≡ₚ x :: l.
Proof.
  induction l as [|y l IH]; simpl; [done|].
  case_decide; [done|].
  rewrite IH. apply Permutation_swap.
Qed.

Lemma sorted_rev_perm l : Py.sorted_rev R key l ≡ₚ l.
Proof.
  induction l as [|x l IH]; simpl; [done|].
  by rewrite insert_desc_perm, IH.
Qed.

Lemma sorted_rev_length l : length (Py.sorted_rev R key l) = length l.
Proof. by rewrite sorted_rev_perm. Qed.

Lemma insert_desc_sorted x l :
  StronglySorted desc l → StronglySorted desc (Py.insert_desc R key x l).
Proof.
  induction 1 as [|y l Hl IH Hy]; simpl.
  - repeat constructor.
  - case_decide as Hyx.
    + constructor; [by constructor|].
      constructor; [done|].
      eapply Forall_impl; [exact Hy|].
      intros z Hz; simpl in *. by trans (key y).
    + constructor; [done|].
      rewrite insert_desc_perm. constructor; [|done].
      by destruct (total R (key x) (key y)).
Qed.

Lemma sorted_rev_sorted l : StronglySorted desc (Py.sorted_rev R key l).
Proof.
  induction l; simpl; [constructor|by apply insert_desc_sorted].
Qed.

(** Insertion never moves an element past one with the same key. *)
Lemma insert_desc_filter k x l :
  filter (tie k) (Py.insert_desc R key x l) = filter (tie k) (x :: l).
Proof.
  induction l as [|y l IH]; simpl; [done|].
  case_decide as Hyx; [done|].
  rewrite filter_cons, IH, !filter_cons.
  repeat case_decide; try done.
  destruct Hyx. by replace (key y) with (key x) by congruence.
Qed.

Lemma sorted_rev_filter k l :
  filter (tie k) (Py.sorted_rev R key l) = filter (tie k) l.
Proof.
  induction l as [|x l IH]; simpl; [done|].
  by rewrite insert_desc_filter, !filter_cons, IH.
Qed.

(** The stable descending order is unique: two descending lists with the
    same elements in the same order under every key are equal.  So any
    stable sort returns what [sorted_rev] returns. *)
Lemma stable_desc_unique s1 s2 :
  StronglySorted desc s1 → StronglySorted desc s2 →
  (∀ k, filter (tie k) s1 = filter (tie k) s2) →
  s1 = s2.
Proof.
  intros Hs1. revert s2.
  induction Hs1 as [|x s1 Hs1 IH Hx]; intros s2 Hs2 Hties.
  - destruct s2 as [|y s2]; [done|].
    specialize (Hties (key y)). by rewrite filter_nil, filter_cons_True in Hties.
  - destruct Hs2 as [|y s2 Hs2 Hy].
    { specialize (Hties (key x)).
      by rewrite filter_nil, filter_cons_True in Hties. }
    assert (key x = key y) as Hxy.
    { apply (anti_symm R).
      - destruct (decide (key x = key y)) as [->|Hne]; [done|].
        pose proof (Hties (key x)) as Hk.
        rewrite (filter_cons_True _ x), filter_cons_False in Hk by done.
        assert (x ∈ filter (tie (key x)) s2) as [_ Hin]%list_elem_of_filter
          by (rewrite <-Hk; left).
        rewrite Forall_forall in Hy. by apply Hy.
      - destruct (decide (key x = key y)) as [->|Hne]; [done|].
        pose proof (Hties (key y)) as Hk.
        rewrite (filter_cons_True _ y), filter_cons_False in Hk by done.
        assert (y ∈ filter (tie (key y)) s1) as [_ Hin]%list_elem_of_filter
          by (rewrite Hk; left).
        rewrite Forall_forall in Hx. by apply Hx. }
    pose proof (Hties (key x)) as Hk.
    rewrite !filter_cons_True in Hk by done. injection Hk as -> Hk.
    f_equal. apply IH; [done|]. intros k.
    destruct (decide (key y = k)) as [<-|Hne]; [done|].
    specialize (Hties k). by rewrite !filter_cons_False in Hties.
Qed.

Lemma sorted_rev_unique l s :
  StronglySorted desc s →
  (∀ k, filter (tie k) s = filter (tie k) l) →
  s = Py.sorted_rev R key l.
Proof.
  intros Hs Hties. apply stable_desc_unique; [done|apply sorted_rev_sorted|].
  intros k. by rewrite sorted_rev_filter.
Qed.

Lemma take_sorted_rev_top n l :
  top_n_by R key n l (take n (Py.sorted_rev R key l)).
Proof.
  pose proof (sorted_rev_sorted l) as Hs.
  rewrite <-(take_drop n (Py.sorted_rev R key l)) in Hs.
  split.
  - by rewrite length_take, sorted_rev_length.
  - by eapply StronglySorted_app_1_l.
  - intros k. rewrite <-(sorted_rev_filter k l).
    rewrite <-(take_drop n (Py.sorted_rev R key l)) at 2.
    rewrite filter_app. by apply prefix_app_r.
  - exists (drop n (Py.sorted_rev R key l)). split.
    + by rewrite take_drop, sorted_rev_perm.
    + intros x y Hx Hy. by eapply (StronglySorted_app_1_elem_of _ _ _ x y) in Hs.
Qed.

End sorted_rev_facts.

(** ** The rank of an element in the stable descending order *)

Lemma next_index_from_app {A} (p : A → bool) l1 y l2 i :
  Forall (λ x, p x = false) l1 → p y = true →
  Py.next_index_from p (l1 ++ y :: l2) i = Py.Ok (i + Z.of_nat (length l1)).
Proof.
  intros Hl1 Hy. revert i.
  induction Hl1 as [|x l1 Hx _ IH]; intros i; simpl.
  - rewrite Hy. f_equal. lia.
  - rewrite Hx, IH. f_equal. lia.
Qed.

Lemma filter_none {A} (P : A → Prop) `{!∀ x, Decision (P x)} (l : list A) :
  Forall (λ x, ¬ P x) l → filter P l = [].
Proof.
  induction 1 as [|x l Hx _ IH]; [done|].
  by rewrite filter_cons_False.
Qed.

Section sorted_rev_rank.
Context {A K : Type} (R : relation K).
Context `{!RelDecision R, !PartialOrder R, !Total R, !EqDecision K}.
Context (key : A → K).

Local Abbreviation desc := (λ x y : A, R (key y) (key x)).
Local Abbreviation above k := (λ x : A, ¬ R (key x) k).
Local Abbreviation tie k := (λ x : A, key x = k).
Local Abbreviation below k := (λ x : A, ¬ R k (key x)).

(** A descending list is its elements above [k], then those at [k], then
    those below. *)
Lemma sorted_desc_split k s :
  StronglySorted desc s →
  s = filter (above k) s ++ filter (tie k) s ++ filter (below k) s.
Proof.
  induction 1 as [|y s Hs IH Hy]; [done|].
  rewrite !filter_cons.
  destruct (decide (above k y)) as [Hab|Hab].
  - rewrite decide_False, decide_False; [simpl; by f_equal| |].
    + intros Hb. destruct (total R (key y) k); tauto.
    + intros <-. by destruct Hab.
  - apply dec_stable in Hab.
    assert (filter (above k) s = []) as Hnone.
    { apply filter_none. eapply Forall_impl; [exact Hy|].
      intros z Hz Hzk; simpl in *. apply Hzk. by trans (key y). }
    rewrite Hnone in *. simpl in *.
    destruct (decide (tie k y)) as [Htie|Htie].
    + rewrite decide_False; [simpl; by f_equal|].
      intros Hb. apply Hb. by rewrite Htie.
    + assert (below k y) as Hb.
      { intros Hky. apply Htie. by apply (anti_symm R). }
      assert (filter (tie k) s = []) as Hnot.
      { apply filter_none. eapply Forall_impl; [exact Hy|].
        intros z Hz <-; simpl in *. apply Htie. by apply (anti_symm R). }
      rewrite Hnot in *. simpl in *.
      rewrite decide_True by done. by f_equal.
Qed.

(** The first element satisfying [p] in the sorted list, when exactly one
    element [me] of the input satisfies [p]: ahead of it are the elements
    with a larger key and the earlier elements with the same key. *)
Lemma next_index_sorted_rev (p : A → bool) pre me post :
  p me = true →
  Forall (λ x, p x = false) (pre ++ post) →
  Py.next_index_from p (Py.sorted_rev R key (pre ++ me :: post)) 1 =
  Py.Ok (1 + Z.of_nat (length (filter (above (key me)) (pre ++ me :: post)))
           + Z.of_nat (length (filter (tie (key me)) pre))).
Proof.
  intros Hme Hothers.
  set (l := pre ++ me :: post). set (s := Py.sorted_rev R key l).
  assert (StronglySorted desc s) as Hs by apply (sorted_rev_sorted R key).
  rewrite (sorted_desc_split (key me) s Hs).
  assert (filter (tie (key me)) s
          = filter (tie (key me)) pre ++ me :: filter (tie (key me)) post)
    as ->.
  { unfold s, l. by rewrite sorted_rev_filter, filter_app, filter_cons_True. }
  rewrite <-(assoc_L (++) (filter _ pre)), (assoc_L (++) (filter _ s)).
  simpl. rewrite next_index_from_app; [|..|done].
  - rewrite length_app. unfold s. rewrite (sorted_rev_perm R key l). f_equal. lia.
  - apply Forall_app in Hothers as [Hpre Hpost].
    apply Forall_app. split.
    + apply Forall_forall. intros x [Hx Hin]%list_elem_of_filter.
      unfold s in Hin. rewrite (sorted_rev_perm R key l) in Hin.
      unfold l in Hin. apply elem_of_app in Hin as [Hin|Hin].
      * by eapply Forall_forall in Hpre.
      * apply elem_of_cons in Hin as [->|Hin]; [by destruct Hx|].
        by eapply Forall_forall in Hpost.
    + apply Forall_forall. intros x [_ Hin]%list_elem_of_filter.
      by eapply Forall_forall in Hpre.
Qed.

End sorted_rev_rank.

(** ** Generators: [next] over a filtered list *)

Lemma next_or_none_None {A} (p : A → bool) l :
  Py.next_or_none p l = None ↔ Forall (λ x, p x = false) l.
Proof.
  unfold Py.next_or_none. induction l as [|x l IH]; simpl.
  - split; [constructor|done].
  - destruct (p x) eqn:Hx.
    + split; [done|]. inversion 1; congruence.
    + rewrite IH. split; [by constructor|by inversion 1].
Qed.

Lemma next_or_none_first {A} (p : A → bool) pre x post :
  Forall (λ y, p y = false) pre → p x = true →
  Py.next_or_none p (pre ++ x :: post) = Some x.
Proof.
  unfold Py.next_or_none. intros Hpre Hx.
  induction Hpre as [|y pre Hy _ IH]; simpl; [by rewrite Hx|by rewrite Hy].
Qed.

Lemma next_or_none_Some {A} (p : A → bool) l x :
  Py.next_or_none p l = Some x →
  ∃ pre post,
    l = pre ++ x :: post ∧ Forall (λ y, p y = false) pre ∧ p x = true.
Proof.
  unfold Py.next_or_none. induction l as [|y l IH]; simpl; [done|].
  destruct (p y) eqn:Hy.
  - intros [= ->]. by exists [], l.
  - intros (pre & post & -> & Hpre & Hx)%IH.
    exists (y :: pre), post. by repeat constructor.
Qed.

Lemma first_current_next evs :
  first_current evs =
  Event.id <$> Py.next_or_none (λ ev, Py.truthy (Event.is_current ev)) evs.
Proof.
  induction evs as [|ev evs IH]; simpl; [done|].
  by destruct (Py.truthy (Event.is_current ev)).
Qed.

(** ** The top-5 selectors *)

(** C1.  For every player collection, the form selector and the
    transfers-in selector return exactly [min 5 N] entries, in descending
    order of the field, entries with equal values in their original relative
    order, and no entry left out has a larger value than a returned one.
    The team-strength selector, built the same way, is covered as well. *)
Theorem top5_selectors_stable_desc (self : FPLAnalyzer) :
  let players := default [] (Bootstrap.elements (player_data self)) in
  let teams := default [] (Bootstrap.teams (player_data self)) in
  top_n_by Qcle Player.form 5 players (get_form_players self) ∧
  top_n_by Z.le Player.transfers_in_event 5 players
    (get_most_transferred self) ∧
  top_n_by Z.le
    (λ x, Team.strength_overall_home x + Team.strength_overall_away x)
    5 teams (get_team_strengths self).
Proof. repeat split; apply take_sorted_rev_top; apply _. Qed.

(** ** Current-gameweek resolution *)

(** C9.  Loading fails exactly when no event is flagged current, with
    [ValueError] when the events list is there; the collection script's
    lookup returns [None] in exactly that case; and when some event is
    flagged, both resolve to the id of the first such event. *)
Theorem current_gameweek_resolution (pd : Bootstrap.t) (ld : League.t) :
  let events := default [] (Bootstrap.events pd) in
  let flagged := λ ev, Py.truthy (Event.is_current ev) in
  (Py.raises (load_data pd ld) ↔ Forall (λ ev, flagged ev = false) events) ∧
  (get_current_gameweek pd = None ↔ Forall (λ ev, flagged ev = false) events) ∧
  (∀ evs, Bootstrap.events pd = Some evs →
     Forall (λ ev, flagged ev = false) evs →
     load_data pd ld = Py.Raise Py.ValueError) ∧
  (∀ pre ev post,
     events = pre ++ ev :: post →
     Forall (λ ev', flagged ev' = false) pre → flagged ev = true →
     get_current_gameweek pd = Some (Event.id ev) ∧
     ∃ a, load_data pd ld = Py.Ok a ∧
          current_gw a = Event.id ev ∧ current_gw_event a = ev).
Proof.
  intros events flagged. unfold get_current_gameweek, load_data.
  fold events. rewrite first_current_next. fold flagged.
  split; [|split; [|split]].
  - subst events.
    destruct (Bootstrap.events pd) as [evs|]; simpl; [|by split].
    rewrite <-next_or_none_None.
    by destruct (Py.next_or_none flagged evs).
  - rewrite <-next_or_none_None.
    by destruct (Py.next_or_none flagged events).
  - intros evs -> Hnone%next_or_none_None. by rewrite Hnone.
  - intros pre ev post Hev Hpre Hflag.
    pose proof (next_or_none_first flagged pre ev post Hpre Hflag) as Hnext.
    rewrite <-Hev in Hnext. rewrite Hnext. split; [done|].
    subst events. destruct (Bootstrap.events pd) as [evs|]; simpl in *.
    + rewrite Hnext. by eexists.
    + by destruct pre.
Qed.

Lemma current_gameweek_resolution_witness :
  get_current_gameweek Sample.bootstrap = Some 7 ∧
  ∃ a,
    load_data Sample.bootstrap Sample.league = Py.Ok a ∧
    current_gw a = 7 ∧ current_gw_event a = Event.mk 7 (Some true).
Proof.
  destruct (current_gameweek_resolution Sample.bootstrap Sample.league)
    as (_ & _ & _ & Hfirst).
  apply (Hfirst [Event.mk 6 (Some false)] (Event.mk 7 (Some true))
           [Event.mk 8 None]).
  - reflexivity.
  - repeat constructor.
  - reflexivity.
Defined.

(** ** The lookups built by [load_data] *)

(** A lookup in a dictionary comprehension finds the value of the last
    element with that key. *)
Lemma dict_of_lookup {A V} (k : A → Z) (v : A → V) (l : list A) (i : Z) :
  dict_of k v l !! i = v <$> last (filter (λ x, k x = i) l).
Proof.
  unfold dict_of. induction l as [|x l IH] using rev_ind; [done|].
  rewrite foldl_snoc, filter_app, lookup_insert.
  destruct (decide (k x = i)) as [Hk|Hk].
  - by rewrite filter_cons_True, filter_nil, last_snoc.
  - by rewrite filter_cons_False, filter_nil, app_nil_r.
Qed.

Lemma load_data_points pd ld a i :
  load_data pd ld = Py.Ok a →
  player_id_to_points a !! i =
  Player.event_points <$>
    last (filter (λ p, Player.id p = i) (default [] (Bootstrap.elements pd))).
Proof.
  unfold load_data. intros Ha. repeat case_match; try done.
  injection Ha as <-. apply dict_of_lookup.
Qed.

(** ** Division and [max] that cannot fail *)

Lemma truediv_ok a b :
  b ≠ 0 →
  Py.truediv a b = Py.Ok (PrimFloat.div (Py.float_of_int a) (Py.float_of_int b)).
Proof. intros. unfold Py.truediv. by rewrite decide_False. Qed.

(** ** Reading a stored record *)

Lemma get_of_object {D A} (d : option (option D)) (field : D → option A) :
  d ≠ Some None → Py.get_of d field = Py.Ok (mjoin d ≫= field).
Proof. by destruct d as [[x|]|]. Qed.

Lemma result_bind_ok {A B} (v : A) (k : A → Py.result B) :
  Py.Ok v ≫= k = k v.
Proof. done. Qed.

Lemma result_fmap_ok {A B} (f : A → B) (v : A) : f <$> Py.Ok v = Py.Ok (f v).
Proof. done. Qed.




(** A summary is not produced for a record stored as [null]: the first
    [get] on it raises. *)
Lemma get_manager_details_null self m :
  record_is_null (current_gw self) m →
  get_manager_details self m = Py.Raise Py.AttributeError.
Proof.
  unfold record_is_null, get_manager_details, gw_data_lookup.
  by intros ->.
Qed.


Section max_by_facts.
Context {A K : Type} (R : relation K).
Context `{!RelDecision R, !PreOrder R, !Total R}.
Context (key : A → K).

Lemma foldl_max_step x l :
  let best := foldl (Py.max_step R key) x l in
  best ∈ x :: l ∧ Forall (λ y, R (key y) (key best)) (x :: l).
Proof.
  revert x. induction l as [|y l IH]; intros x; simpl.
  - split; [by left|]. by repeat constructor.
  - destruct (IH (Py.max_step R key x y)) as [Hin Hall].
    apply Forall_cons in Hall as [Hstep Hall].
    unfold Py.max_step in *. case_decide as Hyx.
    + split; [revert Hin; rewrite !elem_of_cons; tauto|].
      repeat constructor; [done| |done]. by trans (key x).
    + split; [revert Hin; rewrite !elem_of_cons; tauto|].
      repeat constructor; [|done..].
      destruct (total R (key x) (key y)); [|done]. by trans (key y).
Qed.

Lemma max_by_default_Some l best :
  Py.max_by_default R key l = Some best →
  best ∈ l ∧ Forall (λ y, R (key y) (key best)) l.
Proof.
  destruct l as [|x l]; [done|]. intros [= <-]. apply foldl_max_step.
Qed.

End max_by_facts.

(** ** The manager summary *)

Section manager_details.
Context (self : FPLAnalyzer) (manager_data : Manager.t).

Let picks := default [] (gw_data_of self manager_data ≫= GwData.picks).

(** The summary is produced unless the stored record is [null]; its captain
    and formation fields are the source's expressions. *)
Lemma get_manager_details_ok :
  ¬ record_is_null (current_gw self) manager_data →
  ∃ d,
    get_manager_details self manager_data = Py.Ok d ∧
    ManagerDetails.captain_points d =
      get_or (player_id_to_points self)
        (Pick.element <$> Py.next_or_none is_captain picks) 0
      * from_option Pick.multiplier 1 (Py.next_or_none is_captain picks) ∧
    ManagerDetails.formation d =
      let starting_players := filter (λ p, Pick.position p ≤ 11) picks in
      pretty (count_code self 2 starting_players) +:+ "-" +:+
      pretty (count_code self 3 starting_players) +:+ "-" +:+
      pretty (count_code self 4 starting_players).
Proof.
  intros Hrecord. unfold get_manager_details.
  rewrite !get_of_object, !result_fmap_ok, !result_bind_ok by done.
  change (mjoin (gw_data_lookup self manager_data))
    with (gw_data_of self manager_data).
  fold picks. rewrite !truediv_ok by done.
  destruct picks; simpl; by eexists.
Qed.

End manager_details.




(** ** The formation string *)





(** ** Fixture strength *)

(** Pages of two: the slices taken at 0, 2, 4, ... put back together are the
    list. *)
Lemma concat_slices {A} (l : list A) :
  concat ((λ i, Py.slice l i (i + 2)) <$> Py.range_step (length l) 2) = l.
Proof.
  unfold Py.range_step, Py.slice. rewrite <-list_fmap_compose.
  set (m := ((length l + 2 - 1) `div` 2)%nat).
  assert (∀ n, concat ((λ k, take (k * 2 + 2 - k * 2) (drop (k * 2) l))
                         <$> seq 0 n) = take (n * 2) l) as Hchunks.
  { induction n as [|n IH]; [done|].
    rewrite seq_S, fmap_app, concat_app, IH. simpl.
    rewrite app_nil_r, take_take_drop. f_equal; lia. }
  unfold compose. rewrite Hchunks. apply take_ge.
  unfold m. pose proof (Nat.div_mod_eq (length l + 2 - 1) 2).
  pose proof (Nat.mod_upper_bound (length l + 2 - 1) 2). lia.
Qed.

Lemma ratio_or_zero_ok n d : ratio_or_zero n d = Py.Ok (strength_ratio n d).
Proof.
  unfold ratio_or_zero, strength_ratio.
  destruct (decide (d = 0)) as [->|Hd]; [done|].
  rewrite decide_True, truediv_ok by done. done.
Qed.

Lemma analyze_fixture_loop self fixtures acc :
  Py.for_each (analyze_fixture self) fixtures acc =
  Py.Ok (acc ++ omap (analyzed_entry self) fixtures).
Proof.
  revert acc. induction fixtures as [|fixture fixtures IH]; intros acc; simpl.
  - by rewrite app_nil_r.
  - unfold analyze_fixture at 1, analyzed_entry at 1.
    destruct (teams_by_id self !! Fixture.team_h fixture) as [home|]; simpl;
      [|apply IH].
    destruct (teams_by_id self !! Fixture.team_a fixture) as [away|]; simpl;
      [|apply IH].
    rewrite !ratio_or_zero_ok. simpl. rewrite IH. by rewrite <-app_assoc.
Qed.

Lemma analyze_fixtures_pages self :
  let fixtures := default [] (Bootstrap.fixtures_next_gw (player_data self)) in
  ∃ pages,
    analyze_fixtures self = Py.Ok pages ∧
    concat pages = omap (analyzed_entry self) fixtures.
Proof.
  intros fixtures. unfold analyze_fixtures. fold fixtures.
  rewrite analyze_fixture_loop. simpl.
  eexists. split; [done|]. apply concat_slices.
Qed.

(** C4.  The fixture analysis never raises.  Every fixture whose two teams
    are in the lookup has an entry whose home ratio is home attack (home)
    over away defence (away) and whose away ratio is away attack (away) over
    home defence (home), each the integer 0 when its denominator is 0. *)
Theorem fixture_strength_ratios (self : FPLAnalyzer) :
  let fixtures := default [] (Bootstrap.fixtures_next_gw (player_data self)) in
  let ratio attack defence :=
    if decide (defence = 0) then Py.Int 0
    else Py.Float
           (PrimFloat.div (Py.float_of_int attack) (Py.float_of_int defence)) in
  ∃ pages,
    analyze_fixtures self = Py.Ok pages ∧
    ∀ fixture home away,
      fixture ∈ fixtures →
      teams_by_id self !! Fixture.team_h fixture = Some home →
      teams_by_id self !! Fixture.team_a fixture = Some away →
      ∃ entry,
        entry ∈ concat pages ∧
        AnalyzedFixture.home_team entry = Team.name home ∧
        AnalyzedFixture.away_team entry = Team.name away ∧
        AnalyzedFixture.home_strength entry =
          ratio (Team.strength_attack_home home)
            (Team.strength_defence_away away) ∧
        AnalyzedFixture.away_strength entry =
          ratio (Team.strength_attack_away away)
            (Team.strength_defence_home home).
Proof.
  intros fixtures ratio.
  destruct (analyze_fixtures_pages self) as (pages & Hpages & Hconcat).
  exists pages. split; [done|].
  intros fixture home away Hin Hhome Haway.
  eexists. split.
  - rewrite Hconcat. apply list_elem_of_omap. exists fixture.
    split; [done|]. unfold analyzed_entry. by rewrite Hhome, Haway.
  - done.
Qed.

Example sample_loaded :
  load_data Sample.bootstrap Sample.league = Py.Ok Sample.analyzer ∧
  load_data Sample.bootstrap_negative (Sample.league_of [Sample.me_negative])
    = Py.Ok Sample.analyzer_negative.
Proof. split; reflexivity. Qed.

Lemma fixture_strength_ratios_witness :
  ∃ pages,
    analyze_fixtures Sample.analyzer = Py.Ok pages ∧
    ∃ entry,
      entry ∈ concat pages ∧
      AnalyzedFixture.home_team entry = "ARS" ∧
      AnalyzedFixture.away_team entry = "AVL" ∧
      AnalyzedFixture.home_strength entry = Py.Int 0 ∧
      AnalyzedFixture.away_strength entry = Py.Float 0.5%float.
Proof.
  destruct (fixture_strength_ratios Sample.analyzer) as (pages & Hpages & Hall).
  exists pages. split; [exact Hpages|].
  apply (Hall (Fixture.mk 1 2)
           (Team.mk 1 "ARS" 1300 1350 1200 1250 1300 1310)
           (Team.mk 2 "AVL" 1100 1150 1100 650 1150 0)).
  - left.
  - reflexivity.
  - reflexivity.
Defined.

(** The sample has two fixtures, the second against the unknown team 99;
    the analysis returns the single entry of the first. *)
Lemma unknown_team_fixture_is_dropped :
  ¬ every_fixture_analyzed Sample.analyzer.
Proof.
  intros (placeholder & pages & Hpages & Hall).
  apply Forall2_length in Hall.
  destruct (analyze_fixtures_pages Sample.analyzer) as (pages' & Hpages' & Heq).
  rewrite Hpages in Hpages'. injection Hpages' as <-.
  rewrite Heq in Hall. vm_compute in Hall. discriminate.
Qed.

(** C5, as the code has it.  The analysis never raises, and its entries are,
    in order, those of the fixtures whose home and away team are both in the
    lookup; a fixture naming a team that is not there gets no entry. *)
Theorem fixtures_with_unknown_team_omitted (self : FPLAnalyzer) :
  let fixtures := default [] (Bootstrap.fixtures_next_gw (player_data self)) in
  ∃ pages,
    analyze_fixtures self = Py.Ok pages ∧
    (λ entry, (AnalyzedFixture.home_team entry, AnalyzedFixture.away_team entry))
      <$> concat pages
    = omap (λ fixture,
              home ← teams_by_id self !! Fixture.team_h fixture;
              away ← teams_by_id self !! Fixture.team_a fixture;
              Some (Team.name home, Team.name away))
        fixtures.
Proof.
  intros fixtures.
  destruct (analyze_fixtures_pages self) as (pages & Hpages & Hconcat).
  exists pages. split; [done|].
  rewrite Hconcat, list_fmap_omap.
  apply list_omap_ext, Forall_Forall2_diag, Forall_forall.
  intros fixture _. unfold analyzed_entry.
  destruct (teams_by_id self !! Fixture.team_h fixture); [|done]; simpl.
  by destruct (teams_by_id self !! Fixture.team_a fixture).
Qed.

(** ** The self-team analysis *)

Lemma getitem_ok {A} (l : list A) (i : Z) :
  0 ≤ i < Z.of_nat (length l) → ∃ x, Py.getitem l i = Py.Ok x.
Proof.
  intros Hi. unfold Py.getitem. cbv zeta.
  rewrite (decide_False (P := i < 0)) by lia.
  rewrite decide_True by lia.
  destruct (lookup_lt_is_Some_2 l (Z.to_nat i)) as [x Hx]; [lia|].
  rewrite Hx. by exists x.
Qed.

Lemma for_each_ok {A S} (body : S → A → Py.result S) (P : A → Prop)
    (l : list A) :
  (∀ acc x, P x → ∃ acc', body acc x = Py.Ok acc') →
  Forall P l →
  ∀ acc, ∃ acc', Py.for_each body l acc = Py.Ok acc'.
Proof.
  intros Hbody. induction 1 as [|x l Hx _ IH]; intros acc; simpl;
    [by eexists|].
  destruct (Hbody acc x Hx) as [acc' ->]. apply IH.
Qed.

Lemma gw_average_step_ok gw acc manager :
  1 ≤ gw → ¬ history_is_null manager →
  ∃ acc', gw_average_step gw acc manager = Py.Ok acc'.
Proof.
  intros Hgw Hnull. unfold gw_average_step, history_is_null in *.
  destruct (Manager.history manager) as [[history|]|]; [|done|by eexists].
  destruct (History.current history) as [current|]; [|by eexists].
  case_decide; [|by eexists].
  destruct (getitem_ok current (gw - 1)) as [row ->]; [lia|]. by eexists.
Qed.

(** From gameweek 1 on, the league average is computed without an error
    whenever the standings are there and no history is a stored [null]. *)
Lemma calculate_gw_average_ok ld gw results :
  League.standings ld ≫= Standings.results = Some results →
  Forall (λ m, ¬ history_is_null m) results →
  1 ≤ gw →
  ∃ avg, calculate_gw_average ld gw = Py.Ok avg.
Proof.
  intros Hres Hnull Hgw. unfold calculate_gw_average. rewrite Hres.
  destruct (for_each_ok (gw_average_step gw) (λ m, ¬ history_is_null m)
              results) with (acc := (0, 0))
    as [acc ->]; [intros; by apply gw_average_step_ok|done|].
  simpl. case_decide; [|by eexists].
  rewrite truediv_ok by done. by eexists.
Qed.

Lemma found_standings_present self my_team :
  Py.next_or_none is_my_team (get_mini_league_standings self) = Some my_team →
  League.standings (league_data self) ≫= Standings.results
  = Some (get_mini_league_standings self).
Proof.
  unfold get_mini_league_standings.
  by destruct (League.standings (league_data self) ≫= Standings.results).
Qed.

Lemma next_index_from_ok {A} (p : A → bool) (l : list A) (i : Z) :
  Exists (λ x, p x = true) l → ∃ j, Py.next_index_from p l i = Py.Ok j.
Proof.
  intros Hex. revert i. induction Hex as [x l Hx|x l _ IH]; intros i; simpl.
  - rewrite Hx. by eexists.
  - destruct (p x); [by eexists|apply IH].
Qed.

Lemma captain_success_rate_ok cp bp :
  captain_success_rate cp bp =
  Py.Ok (if decide (0 < bp)
         then PrimFloat.mul
                (PrimFloat.div (Py.float_of_int cp) (Py.float_of_int bp))
                (Py.float_of_int 100)
         else PrimFloat.zero).
Proof.
  unfold captain_success_rate. case_decide; [|done].
  rewrite truediv_ok by lia. done.
Qed.

(** When the self team is in the standings, the gameweek is at least 1 and
    neither a history nor the self team's record is a stored [null], the
    analysis returns a record; its position and captaincy fields are the
    source's expressions. *)
Lemma my_team_analysis_found self my_team :
  Py.next_or_none is_my_team (get_mini_league_standings self) = Some my_team →
  1 ≤ current_gw self →
  Forall (λ m, ¬ history_is_null m) (get_mini_league_standings self) →
  ¬ record_is_null (current_gw self) my_team →
  let picks := default [] (gw_data_of self my_team ≫= GwData.picks) in
  let bp := best_player_points self picks * 2 in
  ∃ r,
    get_my_team_analysis self = Py.Ok (Some r) ∧
    Py.next_index_from is_my_team
      (Py.sorted_rev Z.le Manager.total (get_mini_league_standings self)) 1
      = Py.Ok (MyTeamAnalysis.position r) ∧
    MyTeamAnalysis.captain_points r = my_captain_points self picks ∧
    MyTeamAnalysis.best_possible_captain_points r = bp ∧
    MyTeamAnalysis.captain_success_rate r =
      (if decide (0 < bp)
       then PrimFloat.mul
              (PrimFloat.div (Py.float_of_int (my_captain_points self picks))
                 (Py.float_of_int bp))
              (Py.float_of_int 100)
       else PrimFloat.zero).
Proof.
  intros Hfound Hgw Hhistory Hrecord picks bp.
  unfold get_my_team_analysis. rewrite Hfound.
  rewrite !get_of_object, !result_fmap_ok by done.
  change (mjoin (gw_data_lookup self my_team)) with (gw_data_of self my_team).
  pose proof Hfound as (pre & post & Hst & _ & Hme)%next_or_none_Some.
  destruct (next_index_from_ok is_my_team
              (Py.sorted_rev Z.le Manager.total (get_mini_league_standings self))
              1) as [position Hpos].
  { apply Exists_exists. exists my_team. split; [|done].
    rewrite (sorted_rev_perm Z.le Manager.total), Hst. set_solver. }
  destruct (calculate_gw_average_ok (league_data self) (current_gw self)
              (get_mini_league_standings self))
    as [gw_avg Havg]; [by eapply found_standings_present|done..|].
  rewrite Hpos, Havg.
  destruct (get_mini_league_standings self) as [|m standings] eqn:Hstandings;
    [by destruct pre|].
  simpl. fold picks. fold bp. rewrite captain_success_rate_ok. simpl.
  eexists. split; [done|]. by simpl.
Qed.

(** The best raw score of the starting lineup: 0 without starters, else a
    score some starter has and no starter exceeds. *)
Lemma best_player_points_spec self picks :
  let starters := filter (λ p, Pick.position p ≤ 11) picks in
  let best := best_player_points self picks in
  (starters = [] ∧ best = 0) ∨
  ((∃ p, p ∈ starters ∧ points_of self p = best) ∧
   Forall (λ p, points_of self p ≤ best) starters).
Proof.
  intros starters best. unfold best, best_player_points.
  destruct picks as [|p0 picks]; [by left|].
  fold starters.
  destruct (Py.max_by_default Z.le (points_of self) starters) as [b|] eqn:Hmax.
  - right. apply (max_by_default_Some Z.le) in Hmax as [Hin Hall].
    split; [by exists b|done].
  - left. by destruct starters.
Qed.

(** Every starter scored -1 and the captain is doubled: captain points -2,
    best raw score -1, denominator -2, and the reported rate is 0 where the
    quotient times 100 is 100. *)
Lemma negative_best_score_rate_is_zero :
  ∃ r,
    get_my_team_analysis Sample.analyzer_negative = Py.Ok (Some r) ∧
    MyTeamAnalysis.captain_points r = -2 ∧
    MyTeamAnalysis.best_possible_captain_points r = 2 * -1 ∧
    MyTeamAnalysis.captain_success_rate r = PrimFloat.zero ∧
    ¬ success_rate_as_claimed r.
Proof.
  eexists. split; [vm_compute; reflexivity|].
  repeat split. unfold success_rate_as_claimed. simpl.
  intros H. apply (f_equal (λ x, PrimFloat.ltb x 50)) in H.
  vm_compute in H. discriminate.
Qed.

(** C3, as the code has it.  With the self team in the standings (the
    gameweek at least 1, no entry's history a stored null and the self team's
    gameweek record not a stored null, so that the league average and the
    picks are read without an exception), the
    analysis returns a record whose best-possible captain points are twice
    the best raw score [best] among the starters (0 without starters) and
    whose success rate is captain points / (2 × best) × 100 when [2 × best]
    is positive and 0 when it is zero or negative.  Captain points 10 with
    best score 8 give exactly 62.5. *)
Theorem captaincy_success_rate_guarded
    (self : FPLAnalyzer) (my_team : Manager.t) :
  Py.next_or_none is_my_team (get_mini_league_standings self) = Some my_team →
  1 ≤ current_gw self →
  Forall (λ m, ¬ history_is_null m) (get_mini_league_standings self) →
  ¬ record_is_null (current_gw self) my_team →
  let picks := default [] (gw_data_of self my_team ≫= GwData.picks) in
  let starters := filter (λ p, Pick.position p ≤ 11) picks in
  ∃ r best,
    get_my_team_analysis self = Py.Ok (Some r) ∧
    ((starters = [] ∧ best = 0) ∨
     ((∃ p, p ∈ starters ∧ points_of self p = best) ∧
      Forall (λ p, points_of self p ≤ best) starters)) ∧
    MyTeamAnalysis.captain_points r = my_captain_points self picks ∧
    MyTeamAnalysis.best_possible_captain_points r = 2 * best ∧
    (0 < 2 * best →
     MyTeamAnalysis.captain_success_rate r =
       PrimFloat.mul
         (PrimFloat.div (Py.float_of_int (MyTeamAnalysis.captain_points r))
            (Py.float_of_int (2 * best)))
         (Py.float_of_int 100)) ∧
    (2 * best ≤ 0 → MyTeamAnalysis.captain_success_rate r = PrimFloat.zero) ∧
    (MyTeamAnalysis.captain_points r = 10 → best = 8 →
     MyTeamAnalysis.captain_success_rate r = 62.5%float).
Proof.
  intros Hfound Hgw Hhistory Hrecord picks starters.
  destruct (my_team_analysis_found self my_team Hfound Hgw Hhistory Hrecord)
    as (r & Hr & _ & Hcp & Hbp & Hrate).
  fold picks in Hcp, Hbp, Hrate.
  exists r, (best_player_points self picks).
  replace (2 * best_player_points self picks)
    with (best_player_points self picks * 2) by lia.
  rewrite Hcp, Hbp, Hrate.
  split; [done|]. split; [apply best_player_points_spec|].
  split; [done|]. split; [done|]. split; [|split].
  - intros Hpos. by rewrite decide_True.
  - intros Hneg. by rewrite decide_False by lia.
  - intros -> ->. reflexivity.
Qed.

Lemma captaincy_success_rate_guarded_witness :
  ∃ r best,
    get_my_team_analysis Sample.analyzer = Py.Ok (Some r) ∧
    best = 8 ∧
    MyTeamAnalysis.captain_points r = 10 ∧
    MyTeamAnalysis.best_possible_captain_points r = 2 * best ∧
    MyTeamAnalysis.captain_success_rate r = 62.5%float.
Proof.
  destruct (captaincy_success_rate_guarded Sample.analyzer Sample.me)
    as (r & best & Hr & _ & Hcp & Hbp & _ & _ & Hrate).
  - reflexivity.
  - vm_compute. discriminate.
  - repeat constructor; vm_compute; discriminate.
  - vm_compute. discriminate.
  - assert (MyTeamAnalysis.captain_points r = 10) as Hten
      by (rewrite Hcp; reflexivity).
    assert (best = 8) as Height.
    { vm_compute in Hr. injection Hr as <-. simpl in Hbp. lia. }
    exists r, best. repeat split; try done.
    by apply Hrate.
Defined.

(** ** League position *)

Lemma is_my_team_true m :
  is_my_team m = true ↔ Manager.entry_name m = my_team_name.
Proof. unfold is_my_team. by rewrite bool_decide_eq_true. Qed.

Lemma is_my_team_false m :
  is_my_team m = false ↔ Manager.entry_name m ≠ my_team_name.
Proof. unfold is_my_team. by rewrite bool_decide_eq_false. Qed.

(** C6.  With the self entry [me] the only one of that name (the gameweek
    at least 1, no entry's history a stored null and [me]'s gameweek record
    not a stored null, so that the analysis returns), the position
    is 1 plus the number of entries with more total points plus the number of
    entries listed before [me] with the same total: the 1-based rank of [me]
    in the stable descending order.  For totals [100; 80; 120] with self the
    second entry it is 3. *)
Theorem league_position_stable_rank (self : FPLAnalyzer)
    (pre : list Manager.t) (me : Manager.t) (post : list Manager.t) :
  get_mini_league_standings self = pre ++ me :: post →
  Manager.entry_name me = my_team_name →
  Forall (λ m, Manager.entry_name m ≠ my_team_name) (pre ++ post) →
  1 ≤ current_gw self →
  Forall (λ m, ¬ history_is_null m) (pre ++ me :: post) →
  ¬ record_is_null (current_gw self) me →
  ∃ r,
    get_my_team_analysis self = Py.Ok (Some r) ∧
    MyTeamAnalysis.position r =
      1 + Z.of_nat (length (filter (λ m, Manager.total me < Manager.total m)
                              (pre ++ post)))
        + Z.of_nat (length (filter (λ m, Manager.total m = Manager.total me)
                              pre)) ∧
    (Manager.total <$> pre = [100] → Manager.total me = 80 →
     Manager.total <$> post = [120] → MyTeamAnalysis.position r = 3).
Proof.
  intros Hst Hname Hothers Hgw Hhistory Hrecord. rewrite <-Hst in Hhistory.
  assert (Forall (λ m, is_my_team m = false) (pre ++ post)) as Hothers'.
  { eapply Forall_impl; [exact Hothers|]. intros m. by rewrite is_my_team_false. }
  assert (is_my_team me = true) as Hme by by apply is_my_team_true.
  assert (Py.next_or_none is_my_team (get_mini_league_standings self) = Some me)
    as Hfound.
  { rewrite Hst. apply next_or_none_first; [|done].
    by apply Forall_app in Hothers' as [? _]. }
  destruct (my_team_analysis_found self me Hfound Hgw Hhistory Hrecord)
    as (r & Hr & Hpos & _).
  rewrite Hst, (next_index_sorted_rev Z.le Manager.total) in Hpos by done.
  injection Hpos as Hpos.
  assert (MyTeamAnalysis.position r =
      1 + Z.of_nat (length (filter (λ m, Manager.total me < Manager.total m)
                              (pre ++ post)))
        + Z.of_nat (length (filter (λ m, Manager.total m = Manager.total me)
                              pre))) as Hrank.
  { rewrite <-Hpos.
    rewrite (list_filter_iff _ (λ m, Manager.total me < Manager.total m))
      by (intros; lia).
    by rewrite !filter_app, filter_cons_False by lia. }
  exists r. split; [done|]. split; [done|].
  intros Hpre Hme80 Hpost. rewrite Hrank, Hme80.
  destruct pre as [|a [|]]; simplify_eq/=.
  destruct post as [|c [|]]; simplify_eq/=.
  rewrite !filter_cons, filter_nil.
  repeat case_decide; simpl; lia.
Qed.

Lemma league_position_stable_rank_witness :
  ∃ r,
    get_my_team_analysis Sample.analyzer = Py.Ok (Some r) ∧
    MyTeamAnalysis.position r = 3.
Proof.
  destruct (league_position_stable_rank Sample.analyzer
              [Sample.manager "A" 100 (Sample.squad 6 2)] Sample.me
              [Sample.manager "C" 120 (Sample.squad 9 2)])
    as (r & Hr & _ & Hthree).
  - reflexivity.
  - reflexivity.
  - repeat constructor; vm_compute; discriminate.
  - vm_compute. discriminate.
  - repeat constructor; vm_compute; discriminate.
  - vm_compute. discriminate.
  - exists r. split; [exact Hr|]. apply Hthree; reflexivity.
Defined.

(** ** The self team is not in the league *)

Lemma my_team_not_found self :
  Forall (λ m, Manager.entry_name m ≠ my_team_name)
    (get_mini_league_standings self) →
  get_my_team_analysis self = Py.Ok None.
Proof.
  intros Hnone. unfold get_my_team_analysis.
  assert (Py.next_or_none is_my_team (get_mini_league_standings self) = None)
    as ->; [|done].
  apply next_or_none_None. eapply Forall_impl; [exact Hnone|].
  intros m. by rewrite is_my_team_false.
Qed.

(** C8.  When no standings entry carries the self-team name, the analysis
    returns [None] without raising, and the page built from it is the title
    followed by the two fallback lines, again without raising. *)
Theorem self_team_not_found_page
    (width : Z) (format_f : bool → nat → float → string) (self : FPLAnalyzer) :
  Forall (λ m, Manager.entry_name m ≠ my_team_name)
    (get_mini_league_standings self) →
  get_my_team_analysis self = Py.Ok None ∧
  create_my_team_page width format_f self =
  Py.Ok [ draw_text (10, 5) "My Team Analysis" font24;
          draw_line 10 35 (width - 10) 35;
          draw_text (10, 45) "404error.log not found" font16;
          draw_text (10, 70) "in this league." font16 ].
Proof.
  intros Hnone%my_team_not_found. split; [done|].
  unfold create_my_team_page. by rewrite Hnone.
Qed.

Lemma self_team_not_found_page_witness :
  get_my_team_analysis Sample.analyzer_without_me = Py.Ok None ∧
  create_my_team_page 360 (λ _ _ _, ""%string) Sample.analyzer_without_me =
  Py.Ok [ draw_text (10, 5) "My Team Analysis" font24;
          draw_line 10 35 350 35;
          draw_text (10, 45) "404error.log not found" font16;
          draw_text (10, 70) "in this league." font16 ].
Proof.
  apply (self_team_not_found_page 360 (λ _ _ _, ""%string)
           Sample.analyzer_without_me).
  repeat constructor; vm_compute; discriminate.
Defined.

(** ** The success rate is not bounded by 100 *)

(** C10.  In the sample league with a triple captain on the best-scoring
    starter (8 points, multiplier 3), the best-possible figure is still
    twice the raw score and the reported rate is exactly 150. *)
Theorem success_rate_reaches_150 :
  ∃ self my_team captain r,
    Py.next_or_none is_my_team (get_mini_league_standings self) = Some my_team ∧
    let picks := default [] (gw_data_of self my_team ≫= GwData.picks) in
    Py.next_or_none is_captain picks = Some captain ∧
    Pick.multiplier captain = 3 ∧
    Pick.position captain ≤ 11 ∧
    0 < points_of self captain ∧
    Forall
      (λ p, Pick.position p ≤ 11 → points_of self p ≤ points_of self captain)
      picks ∧
    get_my_team_analysis self = Py.Ok (Some r) ∧
    MyTeamAnalysis.captain_points r = 3 * points_of self captain ∧
    MyTeamAnalysis.best_possible_captain_points r = 2 * points_of self captain ∧
    MyTeamAnalysis.captain_success_rate r = 150%float.
Proof.
  exists Sample.analyzer_triple, Sample.me_triple, (Pick.mk 6 6 (Some true) 3).
  eexists. split; [reflexivity|]. cbv zeta.
  split; [reflexivity|]. split; [reflexivity|].
  split; [vm_compute; discriminate|]. split; [reflexivity|].
  split; [|split; [vm_compute; reflexivity|repeat split]].
  by_evaluation.
Qed.

(** The selectors and the summary on the sample league. *)
Example sample_most_transferred :
  Player.id <$> get_most_transferred Sample.analyzer = [13; 6; 9; 2; 10].
Proof. reflexivity. Qed.

Example sample_manager_summary :
  ∃ d,
    get_manager_details Sample.analyzer Sample.me = Py.Ok d ∧
    ManagerDetails.captain_points d = 10 ∧
    ManagerDetails.top_scorer_points d = 9 ∧
    ManagerDetails.team_value d = 100.5%float.
Proof. eexists. split; [vm_compute; reflexivity|]. by repeat split. Qed.

(** * Further properties of the analysis and collection code *)

(** ** The lookup tables of [load_data] *)

Lemma last_filter_unique {A} (P : A → Prop) `{!∀ x, Decision (P x)}
    (l : list A) (x : A) :
  x ∈ l → P x → (∀ y, y ∈ l → P y → y = x) → last (filter P l) = Some x.
Proof.
  intros Hin HP Huniq.
  assert (x ∈ filter P l) as Hx by by apply list_elem_of_filter.
  destruct (filter P l) as [|z k] eqn:Hf using rev_ind; [by apply elem_of_nil in Hx|].
  rewrite last_snoc. f_equal.
  assert (z ∈ filter P l) as [Hz Hzl]%list_elem_of_filter
    by (rewrite Hf; apply elem_of_app; right; left).
  by apply Huniq.
Qed.

Lemma NoDup_fmap_elem_inj {A B} (f : A → B) (l : list A) (x y : A) :
  NoDup (f <$> l) → x ∈ l → y ∈ l → f x = f y → x = y.
Proof.
  induction l as [|a l IH]; [by intros _ ?%elem_of_nil|].
  rewrite fmap_cons, NoDup_cons, !elem_of_cons.
  intros [Ha Hl] [->|Hx] [->|Hy] Hf; [done| | |by apply IH].
  - destruct Ha. rewrite Hf. by apply list_elem_of_fmap_2.
  - destruct Ha. rewrite <-Hf. by apply list_elem_of_fmap_2.
Qed.

(** X1.  After a successful load the two documents are kept as they are, and
    each of the four tables maps an id to the data of the last player (team)
    listed under that id, and to nothing when no player (team) has it.  When
    the player ids are distinct, every player is found under its own id. *)
Theorem load_data_lookups (pd : Bootstrap.t) (ld : League.t) (a : FPLAnalyzer) :
  load_data pd ld = Py.Ok a →
  let players := default [] (Bootstrap.elements pd) in
  let teams := default [] (Bootstrap.teams pd) in
  let listed_under i := last (filter (λ p, Player.id p = i) players) in
  player_data a = pd ∧ league_data a = ld ∧
  (∀ i,
     player_id_to_name a !! i = Player.web_name <$> listed_under i ∧
     player_id_to_points a !! i = Player.event_points <$> listed_under i ∧
     player_id_to_position a !! i = Player.element_type <$> listed_under i ∧
     teams_by_id a !! i = last (filter (λ t, Team.id t = i) teams)) ∧
  (NoDup (Player.id <$> players) →
   ∀ p, p ∈ players →
     player_id_to_name a !! Player.id p = Some (Player.web_name p) ∧
     player_id_to_points a !! Player.id p = Some (Player.event_points p) ∧
     player_id_to_position a !! Player.id p = Some (Player.element_type p)).
Proof.
  intros Hload players teams listed_under.
  assert (player_data a = pd ∧ league_data a = ld ∧
          player_id_to_name a = dict_of Player.id Player.web_name players ∧
          player_id_to_points a = dict_of Player.id Player.event_points players ∧
          player_id_to_position a
            = dict_of Player.id Player.element_type players ∧
          teams_by_id a = dict_of Team.id id teams)
    as (Hpd & Hld & Hn & Hp & Hc & Ht).
  { unfold load_data in Hload. repeat case_match; try done.
    by injection Hload as <-. }
  assert (∀ i,
     player_id_to_name a !! i = Player.web_name <$> listed_under i ∧
     player_id_to_points a !! i = Player.event_points <$> listed_under i ∧
     player_id_to_position a !! i = Player.element_type <$> listed_under i ∧
     teams_by_id a !! i = last (filter (λ t, Team.id t = i) teams)) as Hall.
  { intros i. rewrite Hn, Hp, Hc, Ht, !dict_of_lookup.
    repeat split. by rewrite option_fmap_id. }
  split; [done|]. split; [done|]. split; [done|].
  intros Hnodup p Hin.
  assert (listed_under (Player.id p) = Some p) as Hlast.
  { apply last_filter_unique; [done..|]. intros q Hq Hid.
    by apply (NoDup_fmap_elem_inj Player.id players). }
  destruct (Hall (Player.id p)) as (-> & -> & -> & _). by rewrite Hlast.
Qed.

Lemma load_data_lookups_witness :
  player_data Sample.analyzer = Sample.bootstrap ∧
  player_id_to_points Sample.analyzer !! 6 = Some 8 ∧
  teams_by_id Sample.analyzer !! 99 = None.
Proof.
  destruct (load_data_lookups Sample.bootstrap Sample.league Sample.analyzer)
    as (Hpd & _ & Hall & _); [reflexivity|].
  destruct (Hall 6) as (_ & H6 & _). destruct (Hall 99) as (_ & _ & _ & H99).
  split; [exact Hpd|]. split; [rewrite H6|rewrite H99]; reflexivity.
Defined.

(** ** The league's gameweek average *)

Lemma getitem_nonneg {A} (l : list A) (i : Z) :
  0 ≤ i →
  Py.getitem l i =
  match l !! Z.to_nat i with
  | Some x => Py.Ok x
  | None => Py.Raise Py.IndexError
  end.
Proof.
  intros Hi. unfold Py.getitem. cbv zeta.
  rewrite (decide_False (P := i < 0)) by lia.
  case_decide as Hrange; [done|].
  rewrite (lookup_ge_None_2 l (Z.to_nat i)) by lia. done.
Qed.

Lemma gw_average_step_row gw acc manager :
  1 ≤ gw →
  ¬ history_is_null manager →
  gw_average_step gw acc manager =
  Py.Ok (match gw_row gw manager with
         | Some row => (acc.1 + HistoryRow.points row, acc.2 + 1)
         | None => acc
         end).
Proof.
  intros Hgw Hnull. unfold gw_average_step, gw_row, history_is_null in *.
  destruct (Manager.history manager) as [[history|]|]; simpl; [|done..].
  destruct (History.current history) as [current|]; simpl; [|done].
  case_decide as Hlen.
  - rewrite getitem_nonneg by lia.
    destruct (lookup_lt_is_Some_2 current (Z.to_nat (gw - 1))) as [row Hrow];
      [lia|].
    by rewrite Hrow.
  - by rewrite (lookup_ge_None_2 current) by lia.
Qed.

Lemma gw_average_step_null gw acc manager :
  history_is_null manager →
  gw_average_step gw acc manager = Py.Raise Py.TypeError.
Proof. unfold gw_average_step, history_is_null. by intros ->. Qed.

Lemma gw_average_loop gw results acc :
  1 ≤ gw →
  Forall (λ m, ¬ history_is_null m) results →
  Py.for_each (gw_average_step gw) results acc =
  Py.Ok (acc.1 + foldr Z.add 0 (HistoryRow.points <$> omap (gw_row gw) results),
         acc.2 + Z.of_nat (length (omap (gw_row gw) results))).
Proof.
  intros Hgw Hnull. revert acc.
  induction Hnull as [|manager results Hm _ IH]; intros [total count]; simpl.
  - do 2 f_equal; lia.
  - rewrite gw_average_step_row by done.
    destruct (gw_row gw manager) as [row|]; simpl; rewrite IH; simpl.
    all: unfold omap, fmap; do 2 f_equal; lia.
Qed.

Lemma gw_average_loop_null gw results acc :
  1 ≤ gw →
  Exists history_is_null results →
  Py.for_each (gw_average_step gw) results acc = Py.Raise Py.TypeError.
Proof.
  intros Hgw Hnull. revert acc.
  induction Hnull as [manager results Hm|manager results _ IH]; intros acc;
    simpl.
  - by rewrite gw_average_step_null.
  - destruct (Manager.history manager) as [[history|]|] eqn:Hhistory;
      [|by rewrite gw_average_step_null|].
    all: rewrite gw_average_step_row
      by (done || by unfold history_is_null; rewrite Hhistory).
    all: simpl; apply IH.
Qed.

(** X2.  From gameweek 1 on, with the standings there: when no entry's
    history is a stored null, the league average is taken over the managers
    whose history reaches the gameweek (the integer 0 when there is none,
    otherwise the sum of their points of that gameweek over their number);
    when some entry's history is a stored null, the computation raises a
    TypeError. *)
Theorem gw_average_over_recorded_rows (ld : League.t) (gw : Z)
    (results : list Manager.t) :
  League.standings ld ≫= Standings.results = Some results →
  1 ≤ gw →
  let rows := omap (gw_row gw) results in
  (Forall (λ m, Manager.history m ≠ Some None) results →
   calculate_gw_average ld gw =
   Py.Ok (match rows with
          | [] => Py.Int 0
          | _ =>
              Py.Float
                (PrimFloat.div
                   (Py.float_of_int
                      (foldr Z.add 0 (HistoryRow.points <$> rows)))
                   (Py.float_of_int (Z.of_nat (length rows))))
          end)) ∧
  (Exists (λ m, Manager.history m = Some None) results →
   calculate_gw_average ld gw = Py.Raise Py.TypeError).
Proof.
  intros Hres Hgw rows. unfold calculate_gw_average. rewrite Hres. split.
  - intros Hnull. rewrite gw_average_loop by done. fold rows. simpl.
    destruct rows as [|row rows']; [done|].
    rewrite decide_True by (simpl; lia).
    rewrite truediv_ok by (simpl; lia). done.
  - intros Hnull. by rewrite gw_average_loop_null.
Qed.

Lemma gw_average_over_recorded_rows_witness :
  calculate_gw_average Sample.league 7 = Py.Ok (Py.Float 55%float) ∧
  calculate_gw_average Sample.league 8 = Py.Ok (Py.Int 0) ∧
  calculate_gw_average (league_data Cases.analyzer_null_history) 7
  = Py.Raise Py.TypeError.
Proof.
  assert (Forall (λ m, Manager.history m ≠ Some None)
            [ Sample.manager "A" 100 (Sample.squad 6 2); Sample.me;
              Sample.manager "C" 120 (Sample.squad 9 2) ]) as Hobjects
    by (repeat constructor; vm_compute; discriminate).
  split; [|split].
  - destruct (gw_average_over_recorded_rows Sample.league 7 _ eq_refl)
      as [Hmean _]; [lia|].
    rewrite (Hmean Hobjects). reflexivity.
  - destruct (gw_average_over_recorded_rows Sample.league 8 _ eq_refl)
      as [Hmean _]; [lia|].
    rewrite (Hmean Hobjects). reflexivity.
  - destruct (gw_average_over_recorded_rows
                (league_data Cases.analyzer_null_history) 7 _ eq_refl)
      as [_ Hnull]; [lia|].
    apply Hnull, Exists_cons_tl, Exists_cons_hd. reflexivity.
Defined.

(** ** When the self-team analysis fails *)

Lemma gw_average_step_raise gw acc manager e :
  gw_average_step gw acc manager = Py.Raise e →
  (e = Py.TypeError ∧ history_is_null manager) ∨
  (e = Py.IndexError ∧ gw ≤ 0).
Proof.
  intros Hraise.
  destruct (Manager.history manager) as [[history|]|] eqn:Hhistory.
  - right. destruct (decide (1 ≤ gw)) as [Hgw|Hgw].
    { rewrite gw_average_step_row in Hraise; [done..|].
      unfold history_is_null. by rewrite Hhistory. }
    split; [|lia]. revert Hraise.
    unfold gw_average_step, Py.getitem. rewrite Hhistory. cbv zeta.
    repeat case_match; intros; simplify_eq/=; done.
  - left. unfold gw_average_step in Hraise. rewrite Hhistory in Hraise.
    by simplify_eq.
  - unfold gw_average_step in Hraise. by rewrite Hhistory in Hraise.
Qed.

Lemma for_each_raise {A S} (body : S → A → Py.result S)
    (P : A → Py.exn → Prop) (l : list A) (acc : S) (e : Py.exn) :
  (∀ acc x e, body acc x = Py.Raise e → P x e) →
  Py.for_each body l acc = Py.Raise e → ∃ x, x ∈ l ∧ P x e.
Proof.
  intros Hbody. revert acc. induction l as [|x l IH]; intros acc; simpl; [done|].
  destruct (body acc x) as [acc'|e'] eqn:Hstep; simpl.
  - intros (y & Hy & HP)%IH. exists y. split; [by right|done].
  - intros [= <-]. exists x. split; [by left|by eapply Hbody].
Qed.

Lemma calculate_gw_average_raise ld gw e :
  calculate_gw_average ld gw = Py.Raise e →
  (League.standings ld ≫= Standings.results = None ∧ e = Py.KeyError) ∨
  (e = Py.IndexError ∧ gw ≤ 0) ∨
  (e = Py.TypeError ∧
   ∃ results m, League.standings ld ≫= Standings.results = Some results ∧
                m ∈ results ∧ history_is_null m).
Proof.
  unfold calculate_gw_average.
  destruct (League.standings ld ≫= Standings.results) as [results|];
    [|intros [= <-]; by left].
  destruct (Py.for_each (gw_average_step gw) results (0, 0)) as [acc|e']
    eqn:Hloop; simpl.
  - case_decide; [|done]. by rewrite truediv_ok.
  - intros [= <-]. right.
    destruct (for_each_raise _
                (λ m e, (e = Py.TypeError ∧ history_is_null m) ∨
                        (e = Py.IndexError ∧ gw ≤ 0)) _ _ _
                (gw_average_step_raise gw) Hloop)
      as (m & Hm & [[-> Hnull]|[-> Hgw]]); [right|by left].
    split; [done|]. by exists results, m.
Qed.

Lemma my_team_analysis_found_eq self my_team :
  let standings := get_mini_league_standings self in
  let picks := default [] (gw_data_of self my_team ≫= GwData.picks) in
  Py.next_or_none is_my_team standings = Some my_team →
  ∃ leader position,
    Py.max_by Z.le Manager.total standings = Py.Ok leader ∧
    Py.next_index_from is_my_team
      (Py.sorted_rev Z.le Manager.total standings) 1 = Py.Ok position ∧
    get_my_team_analysis self =
    (gw_avg ← calculate_gw_average (league_data self) (current_gw self);
     _ ← Py.get_of (gw_data_lookup self my_team) GwData.picks;
     mret (Some {|
       MyTeamAnalysis.my_team_name := my_team_name;
       MyTeamAnalysis.my_points := Manager.total my_team;
       MyTeamAnalysis.leader_points := Manager.total leader;
       MyTeamAnalysis.avg_points_total :=
         Py.Float
           (PrimFloat.div
              (Py.float_of_int (foldl Z.add 0 (Manager.total <$> standings)))
              (Py.float_of_int (Z.of_nat (length standings))));
       MyTeamAnalysis.position := position;
       MyTeamAnalysis.num_teams := Z.of_nat (length standings);
       MyTeamAnalysis.my_gw_points :=
         default 0
           ((gw_data_of self my_team ≫= GwData.entry_history)
              ≫= EntryHistory.points);
       MyTeamAnalysis.league_gw_average := gw_avg;
       MyTeamAnalysis.captain_points := my_captain_points self picks;
       MyTeamAnalysis.best_possible_captain_points :=
         best_player_points self picks * 2;
       MyTeamAnalysis.captain_success_rate :=
         if decide (0 < best_player_points self picks * 2)
         then PrimFloat.mul
                (PrimFloat.div
                   (Py.float_of_int (my_captain_points self picks))
                   (Py.float_of_int (best_player_points self picks * 2)))
                (Py.float_of_int 100)
         else PrimFloat.zero
     |})).
Proof.
  intros standings picks Hfound. unfold get_my_team_analysis.
  fold standings. rewrite Hfound.
  pose proof Hfound as (pre & post & Hst & _ & Hme)%next_or_none_Some.
  destruct (next_index_from_ok is_my_team
              (Py.sorted_rev Z.le Manager.total standings) 1)
    as [position Hpos].
  { apply Exists_exists. exists my_team. split; [|done].
    rewrite (sorted_rev_perm Z.le Manager.total), Hst. set_solver. }
  rewrite Hpos. unfold picks, gw_data_of.
  generalize (calculate_gw_average (league_data self) (current_gw self)).
  intros avg.
  destruct standings as [|m rest] eqn:Hstandings; [by destruct pre|].
  eexists _, position. split; [reflexivity|]. split; [done|].
  rewrite truediv_ok by (simpl; lia).
  destruct avg as [gw_avg|e]; simpl; [|done].
  destruct (gw_data_lookup self my_team) as [[record|]|]; simpl; [|done..].
  by rewrite captain_success_rate_ok.
Qed.

(** X3.  The self-team analysis returns when the gameweek is at least 1, no
    standings entry's history is a stored null and the self team's gameweek
    record is not a stored null.  Every exception it raises comes with the
    self team in the standings and is one of three: a TypeError, with some
    entry's history a stored null; an IndexError, with a gameweek id of 0 or
    less, where the history index [gw - 1] is negative; an AttributeError,
    with the self team's gameweek record a stored null. *)
Theorem self_team_analysis_failures (self : FPLAnalyzer) :
  let standings := get_mini_league_standings self in
  let gw := current_gw self in
  (1 ≤ gw →
   Forall (λ m, Manager.history m ≠ Some None) standings →
   (∀ my_team,
      Py.next_or_none is_my_team standings = Some my_team →
      Manager.gameweek_data my_team ≫= (.!! pretty gw) ≠ Some None) →
   ∃ o, get_my_team_analysis self = Py.Ok o) ∧
  (∀ e,
     get_my_team_analysis self = Py.Raise e →
     ∃ my_team,
       Py.next_or_none is_my_team standings = Some my_team ∧
       ((e = Py.TypeError ∧
         Exists (λ m, Manager.history m = Some None) standings) ∨
        (e = Py.IndexError ∧ gw ≤ 0) ∨
        (e = Py.AttributeError ∧
         Manager.gameweek_data my_team ≫= (.!! pretty gw) = Some None))).
Proof.
  intros standings gw. unfold standings, gw.
  destruct (Py.next_or_none is_my_team (get_mini_league_standings self))
    as [my_team|] eqn:Hfound.
  - destruct (my_team_analysis_found_eq self my_team Hfound)
      as (leader & position & _ & _ & ->).
    pose proof (found_standings_present self my_team Hfound) as Hpresent.
    pose proof Hfound as (pre & post & Hst & _ & Hme)%next_or_none_Some.
    split.
    + intros Hgw Hhistory Hrecords.
      destruct (calculate_gw_average_ok (league_data self) (current_gw self)
                  (get_mini_league_standings self))
        as [gw_avg ->]; [done..|].
      rewrite get_of_object; [by eexists|]. by apply Hrecords.
    + intros e Hraise. exists my_team. split; [done|].
      destruct (calculate_gw_average (league_data self) (current_gw self))
        as [gw_avg|e'] eqn:Havg; simpl in Hraise.
      * right; right.
        unfold gw_data_lookup in Hraise.
        destruct (Manager.gameweek_data my_team ≫= (.!! pretty (current_gw self)))
          as [[record|]|]; by simplify_eq/=.
      * injection Hraise as ->.
        apply calculate_gw_average_raise in Havg
          as [[Hmissing _]|[[-> Hgw]|[-> (results & m & Hres & Hm & Hnull)]]].
        { by rewrite Hmissing in Hpresent. }
        { right; by left. }
        left. split; [done|]. apply Exists_exists. exists m. split; [|done].
        rewrite Hpresent in Hres. by injection Hres as <-.
  - unfold get_my_team_analysis. rewrite Hfound.
    split; [by eexists|done].
Qed.

Lemma self_team_analysis_failures_witness :
  (load_data Cases.bootstrap_gw0 Cases.league_gw0 = Py.Ok Cases.analyzer_gw0 ∧
   get_my_team_analysis Cases.analyzer_gw0 = Py.Raise Py.IndexError ∧
   current_gw Cases.analyzer_gw0 ≤ 0) ∧
  (get_my_team_analysis Cases.analyzer_null_history = Py.Raise Py.TypeError ∧
   Exists (λ m, Manager.history m = Some None)
     (get_mini_league_standings Cases.analyzer_null_history)) ∧
  (get_my_team_analysis Cases.analyzer_null_record
   = Py.Raise Py.AttributeError) ∧
  (∃ o, get_my_team_analysis Sample.analyzer = Py.Ok o).
Proof.
  split; [|split; [|split]].
  - split; [reflexivity|].
    assert (get_my_team_analysis Cases.analyzer_gw0 = Py.Raise Py.IndexError)
      as Hraise by reflexivity.
    split; [exact Hraise|].
    destruct (self_team_analysis_failures Cases.analyzer_gw0) as [_ Honly].
    destruct (Honly Py.IndexError Hraise)
      as (_ & _ & [[? _]|[[_ Hgw]|[? _]]]); done.
  - assert (get_my_team_analysis Cases.analyzer_null_history
            = Py.Raise Py.TypeError) as Hraise by reflexivity.
    split; [exact Hraise|].
    destruct (self_team_analysis_failures Cases.analyzer_null_history)
      as [_ Honly].
    destruct (Honly Py.TypeError Hraise)
      as (_ & _ & [[_ Hnull]|[[? _]|[? _]]]); done.
  - reflexivity.
  - destruct (self_team_analysis_failures Sample.analyzer) as [Hreturns _].
    apply Hreturns; [by_evaluation| |].
    + repeat constructor; vm_compute; discriminate.
    + intros my_team [= <-]. vm_compute. discriminate.
Defined.

(** ** Found and not found *)

(** X4.  The analysis returns [None] exactly when no standings entry carries the
    self-team name: a team that is found never comes back as "not found". *)
Theorem not_found_exactly_when_absent (self : FPLAnalyzer) :
  get_my_team_analysis self = Py.Ok None ↔
  Forall (λ m, Manager.entry_name m ≠ my_team_name)
    (get_mini_league_standings self).
Proof.
  split; [|apply my_team_not_found].
  intros Hnone.
  destruct (Py.next_or_none is_my_team (get_mini_league_standings self))
    as [my_team|] eqn:Hfound.
  - destruct (my_team_analysis_found_eq self my_team Hfound)
      as (leader & position & _ & _ & Heq).
    rewrite Heq in Hnone.
    destruct (calculate_gw_average (league_data self) (current_gw self));
      [|done].
    by destruct (gw_data_lookup self my_team) as [[record|]|].
  - apply next_or_none_None in Hfound.
    eapply Forall_impl; [exact Hfound|]. intros m. by rewrite is_my_team_false.
Qed.

(** ** Leader, number of teams and position *)

Lemma next_index_from_inv {A} (p : A → bool) (l : list A) (i j : Z) :
  Py.next_index_from p l i = Py.Ok j →
  ∃ l1 x l2,
    l = l1 ++ x :: l2 ∧ Forall (λ y, p y = false) l1 ∧ p x = true ∧
    j = i + Z.of_nat (length l1).
Proof.
  revert i. induction l as [|y l IH]; intros i; simpl; [done|].
  destruct (p y) eqn:Hy.
  - intros [= <-]. exists [], y, l. repeat split; [constructor|done|simpl; lia].
  - intros (l1 & x & l2 & -> & Hl1 & Hx & ->)%IH.
    exists (y :: l1), x, l2.
    repeat split; [by constructor|done|simpl; lia].
Qed.

Lemma max_by_Ok {A} (key : A → Z) (l : list A) (best : A) :
  Py.max_by Z.le key l = Py.Ok best →
  best ∈ l ∧ Forall (λ y, key y ≤ key best) l.
Proof.
  destruct l as [|x l]; [done|]. intros [= <-].
  apply (foldl_max_step Z.le key).
Qed.

(** X5.  With the self team found (gameweek at least 1, no entry's history
    and not the self team's gameweek record a stored null), the reported leader
    points are the largest total of the league, so never below the self
    team's points; the number of teams is the length of the standings; the
    position lies between 1 and that number; and the entry at that position
    of the descending order carries the self-team name, with a total at
    least the reported one. *)
Theorem leader_and_position_bounds (self : FPLAnalyzer) (my_team : Manager.t) :
  let standings := get_mini_league_standings self in
  let sorted_by_points := Py.sorted_rev Z.le Manager.total standings in
  Py.next_or_none is_my_team standings = Some my_team →
  1 ≤ current_gw self →
  Forall (λ m, ¬ history_is_null m) standings →
  ¬ record_is_null (current_gw self) my_team →
  ∃ r,
    get_my_team_analysis self = Py.Ok (Some r) ∧
    MyTeamAnalysis.my_points r = Manager.total my_team ∧
    (∃ m, m ∈ standings ∧ Manager.total m = MyTeamAnalysis.leader_points r) ∧
    Forall (λ m, Manager.total m ≤ MyTeamAnalysis.leader_points r) standings ∧
    MyTeamAnalysis.my_points r ≤ MyTeamAnalysis.leader_points r ∧
    MyTeamAnalysis.num_teams r = Z.of_nat (length standings) ∧
    1 ≤ MyTeamAnalysis.position r ≤ MyTeamAnalysis.num_teams r ∧
    ∃ m,
      sorted_by_points !! Z.to_nat (MyTeamAnalysis.position r - 1) = Some m ∧
      Manager.entry_name m = my_team_name ∧
      MyTeamAnalysis.my_points r ≤ Manager.total m.
Proof.
  intros standings sorted_by_points Hfound Hgw Hhistory Hrecord.
  destruct (my_team_analysis_found_eq self my_team Hfound)
    as (leader & position & Hmax & Hpos & Heq).
  fold standings in Hmax, Hpos, Heq. fold sorted_by_points in Hpos.
  pose proof Hfound as (pre & post & Hst & _ & Hme)%next_or_none_Some.
  assert (my_team ∈ standings) as Hin by (rewrite Hst; set_solver).
  destruct (calculate_gw_average_ok (league_data self) (current_gw self)
              standings)
    as [gw_avg Havg]; [by eapply found_standings_present|done..|].
  rewrite Havg, get_of_object in Heq by done. simpl in Heq.
  apply max_by_Ok in Hmax as [Hleader Hall].
  apply next_index_from_inv in Hpos as (l1 & m & l2 & Hsorted & Hl1 & Hm & ->).
  assert (length sorted_by_points = length standings) as Hlen
    by apply (sorted_rev_length Z.le Manager.total).
  rewrite Hsorted, length_app in Hlen. simpl in Hlen.
  eexists. split; [exact Heq|]. simpl.
  split; [done|]. split; [by exists leader|]. split; [done|].
  split; [by eapply Forall_forall in Hall|]. split; [done|].
  split; [lia|]. exists m.
  split; [|split; [by apply is_my_team_true|]].
  - rewrite Hsorted. replace (Z.to_nat (1 + Z.of_nat (length l1) - 1))
      with (length l1 + 0)%nat by lia.
    by rewrite lookup_app_r by lia; rewrite Nat.add_comm, Nat.add_sub.
  - assert (my_team ∈ sorted_by_points) as Hin'.
    { unfold sorted_by_points.
      by rewrite (sorted_rev_perm Z.le Manager.total). }
    pose proof (sorted_rev_sorted Z.le Manager.total standings) as Hs.
    fold sorted_by_points in Hs. rewrite Hsorted in Hs, Hin'.
    apply StronglySorted_app_1_r in Hs. apply StronglySorted_cons in Hs as [Hm2 _].
    apply elem_of_app in Hin' as [Hin'|Hin'].
    { eapply Forall_forall in Hl1; [|exact Hin']. congruence. }
    apply elem_of_cons in Hin' as [->|Hin']; [done|].
    by eapply Forall_forall in Hm2.
Qed.

Lemma leader_and_position_bounds_witness :
  ∃ r,
    get_my_team_analysis Sample.analyzer = Py.Ok (Some r) ∧
    MyTeamAnalysis.my_points r = 80 ∧
    MyTeamAnalysis.my_points r ≤ MyTeamAnalysis.leader_points r ∧
    MyTeamAnalysis.num_teams r = 3 ∧
    1 ≤ MyTeamAnalysis.position r ≤ MyTeamAnalysis.num_teams r.
Proof.
  destruct (leader_and_position_bounds Sample.analyzer Sample.me)
    as (r & Hr & Hmy & _ & _ & Hle & Hn & Hpos & _).
  - reflexivity.
  - vm_compute. discriminate.
  - repeat constructor; vm_compute; discriminate.
  - vm_compute. discriminate.
  - exists r. split; [exact Hr|]. split; [exact Hmy|]. split; [exact Hle|].
    split; [exact Hn|exact Hpos].
Defined.

(** ** The rest of the manager summary *)

(** [max] returns the first element with the largest key: everything before
    it has a strictly smaller key, nothing after it a larger one. *)
Lemma foldl_max_step_first {A} (key : A → Z) (x : A) (l : list A) :
  ∃ pre post,
    x :: l = pre ++ foldl (Py.max_step Z.le key) x l :: post ∧
    Forall (λ y, key y < key (foldl (Py.max_step Z.le key) x l)) pre ∧
    Forall (λ y, key y ≤ key (foldl (Py.max_step Z.le key) x l)) post.
Proof.
  induction l as [|y l IH] using rev_ind.
  - exists [], []. by repeat constructor.
  - destruct IH as (pre & post & Heq & Hpre & Hpost).
    rewrite foldl_snoc. unfold Py.max_step at 1 3 5.
    set (best := foldl (Py.max_step Z.le key) x l) in *.
    case_decide as Hy.
    + exists pre, (post ++ [y]). split; [|split; [done|]].
      * rewrite app_comm_cons, Heq. by rewrite <-app_assoc.
      * apply Forall_app. split; [done|]. by repeat constructor.
    + exists (x :: l), []. split; [done|]. split; [|constructor].
      rewrite Heq. apply Forall_app. split.
      * eapply Forall_impl; [exact Hpre|]. intros z Hz; simpl in *. lia.
      * constructor; [lia|].
        eapply Forall_impl; [exact Hpost|]. intros z Hz; simpl in *. lia.
Qed.

Lemma get_manager_details_top self manager_data :
  ¬ record_is_null (current_gw self) manager_data →
  let picks := default [] (gw_data_of self manager_data ≫= GwData.picks) in
  let entry_history :=
    gw_data_of self manager_data ≫= GwData.entry_history in
  ∃ d,
    get_manager_details self manager_data = Py.Ok d ∧
    (ManagerDetails.top_scorer_name d, ManagerDetails.top_scorer_points d) =
      match picks with
      | [] => ("Unknown"%string, 0)
      | x :: l =>
          let best := foldl (Py.max_step Z.le (points_of self)) x l in
          (get_or (player_id_to_name self) (Some (Pick.element best))
             "Unknown"%string,
           points_of self best)
      end ∧
    ManagerDetails.points d = default 0 (entry_history ≫= EntryHistory.points) ∧
    ManagerDetails.transfers d
      = default 0 (entry_history ≫= EntryHistory.event_transfers) ∧
    ManagerDetails.team_value d =
      PrimFloat.div
        (Py.float_of_int (default 0 (entry_history ≫= EntryHistory.value)))
        (Py.float_of_int 10) ∧
    ManagerDetails.bank d =
      PrimFloat.div
        (Py.float_of_int (default 0 (entry_history ≫= EntryHistory.bank)))
        (Py.float_of_int 10) ∧
    ManagerDetails.chip_used d =
      default "None"%string (gw_data_of self manager_data ≫= GwData.active_chip) ∧
    ManagerDetails.captain_name d =
      get_or (player_id_to_name self)
        (Pick.element <$> Py.next_or_none is_captain picks) "Unknown"%string ∧
    ManagerDetails.rank_movement d =
      default 0 (Manager.rank_sort manager_data)
      - default 0 (Manager.last_rank manager_data) ∧
    ManagerDetails.manager_name d = Manager.entry_name manager_data ∧
    ManagerDetails.total_points d = Manager.total manager_data.
Proof.
  intros Hrecord picks entry_history. unfold get_manager_details.
  rewrite !get_of_object, !result_fmap_ok, !result_bind_ok by done.
  change (mjoin (gw_data_lookup self manager_data))
    with (gw_data_of self manager_data).
  fold picks. fold entry_history.
  rewrite !truediv_ok by done.
  destruct picks; simpl; eexists; (split; [reflexivity|]); by repeat split.
Qed.

(** X6.  For a manager whose gameweek record is not a stored null, the top
    scorer of the summary is taken over all picks, bench included:
    without picks it is "Unknown" with 0 points; otherwise it is the first
    pick whose player's points no other pick exceeds, shown under the
    player's name, or "Unknown" when the id is not in the name table. *)
Theorem top_scorer_is_first_maximum (self : FPLAnalyzer) (manager_data : Manager.t) :
  ¬ record_is_null (current_gw self) manager_data →
  let picks := default [] (gw_data_of self manager_data ≫= GwData.picks) in
  ∃ d,
    get_manager_details self manager_data = Py.Ok d ∧
    ((picks = [] ∧
      ManagerDetails.top_scorer_name d = "Unknown"%string ∧
      ManagerDetails.top_scorer_points d = 0)
     ∨
     (∃ pre best post,
        picks = pre ++ best :: post ∧
        Forall (λ p, points_of self p < points_of self best) pre ∧
        Forall (λ p, points_of self p ≤ points_of self best) post ∧
        ManagerDetails.top_scorer_points d = points_of self best ∧
        ManagerDetails.top_scorer_name d =
          default "Unknown"%string
            (player_id_to_name self !! Pick.element best))).
Proof.
  intros Hrecord picks.
  destruct (get_manager_details_top self manager_data Hrecord)
    as (d & Hd & Htop & _).
  fold picks in Htop. exists d. split; [done|].
  destruct picks as [|x l]; simplify_eq/=; [by left|]. right.
  destruct (foldl_max_step_first (points_of self) x l)
    as (pre & post & Heq & Hpre & Hpost).
  by exists pre, (foldl (Py.max_step Z.le (points_of self)) x l), post.
Qed.

Lemma top_scorer_is_first_maximum_witness :
  ∃ d,
    get_manager_details Sample.analyzer Sample.me = Py.Ok d ∧
    ManagerDetails.top_scorer_points d = 9.
Proof.
  destruct (top_scorer_is_first_maximum Sample.analyzer Sample.me)
    as (d & Hd & _).
  - vm_compute. discriminate.
  - exists d. split; [exact Hd|].
    vm_compute in Hd. injection Hd as <-. reflexivity.
Defined.

(** X7.  A manager without an entry for the current gameweek among the
    stored gameweek records still gets a summary: zero points, transfers, value and bank, captain and top scorer
    "Unknown" with 0 points, formation "0-0-0" and chip "None"; name, total
    and rank movement come from the standings entry. *)
Theorem summary_without_gameweek_record
    (self : FPLAnalyzer) (manager_data : Manager.t) :
  Manager.gameweek_data manager_data ≫= (.!! pretty (current_gw self)) = None →
  get_manager_details self manager_data =
  Py.Ok {|
    ManagerDetails.points := 0;
    ManagerDetails.captain_name := "Unknown";
    ManagerDetails.captain_points := 0;
    ManagerDetails.transfers := 0;
    ManagerDetails.team_value := PrimFloat.zero;
    ManagerDetails.bank := PrimFloat.zero;
    ManagerDetails.top_scorer_name := "Unknown";
    ManagerDetails.top_scorer_points := 0;
    ManagerDetails.formation := "0-0-0";
    ManagerDetails.chip_used := "None";
    ManagerDetails.rank_movement :=
      default 0 (Manager.rank_sort manager_data)
      - default 0 (Manager.last_rank manager_data);
    ManagerDetails.manager_name := Manager.entry_name manager_data;
    ManagerDetails.total_points := Manager.total manager_data
  |}.
Proof.
  intros Hnone. unfold get_manager_details, gw_data_of, gw_data_lookup.
  rewrite Hnone. reflexivity.
Qed.

Lemma summary_without_gameweek_record_witness :
  ∃ d,
    get_manager_details Sample.analyzer Cases.manager_other_gw = Py.Ok d ∧
    ManagerDetails.formation d = "0-0-0"%string ∧
    ManagerDetails.captain_name d = "Unknown"%string ∧
    ManagerDetails.rank_movement d = 4.
Proof.
  eexists. split.
  - apply (summary_without_gameweek_record Sample.analyzer
             Cases.manager_other_gw).
    reflexivity.
  - repeat split.
Defined.

(** ** Pages of two fixtures *)

Lemma pages_of_two {A} (l : list A) :
  let pages := (λ i, Py.slice l i (i + 2)) <$> Py.range_step (length l) 2 in
  length pages = ((length l + 1) `div` 2)%nat ∧
  ∀ k page,
    pages !! k = Some page →
    page = take 2 (drop (2 * k) l) ∧
    (1 ≤ length page ≤ 2)%nat ∧
    ((S k < length pages)%nat → length page = 2%nat).
Proof.
  intros pages. unfold pages, Py.range_step.
  replace (length l + 2 - 1)%nat with (length l + 1)%nat by lia.
  assert (∃ d, d = ((length l + 1) `div` 2)%nat ∧
               (2 * d ≤ length l + 1 < 2 * d + 2)%nat) as (d & <- & Hd).
  { eexists. split; [done|].
    pose proof (Nat.div_mod_eq (length l + 1) 2).
    pose proof (Nat.mod_upper_bound (length l + 1) 2). lia. }
  rewrite !length_fmap, length_seq. split; [done|].
  intros k page. rewrite !list_lookup_fmap.
  destruct (seq 0 d !! k) as [i|] eqn:Hi; [|done].
  apply lookup_seq in Hi as [-> Hk]. simpl. intros [= <-].
  unfold Py.slice.
  replace (k * 2 + 2 - k * 2)%nat with 2%nat by lia.
  replace (k * 2)%nat with (2 * k)%nat by lia.
  split; [done|].
  rewrite length_take, length_drop. lia.
Qed.

(** X8.  The fixture analysis hands out its entries two to a page: there are
    [(n + 1) / 2] pages for [n] entries, page [k] holds the entries from
    [2k] on, no page is empty and every page but the last is full. *)
Theorem fixtures_paged_by_two (self : FPLAnalyzer) :
  ∃ pages,
    analyze_fixtures self = Py.Ok pages ∧
    length pages = ((length (concat pages) + 1) `div` 2)%nat ∧
    ∀ k page,
      pages !! k = Some page →
      page = take 2 (drop (2 * k) (concat pages)) ∧
      (1 ≤ length page ≤ 2)%nat ∧
      ((S k < length pages)%nat → length page = 2%nat).
Proof.
  unfold analyze_fixtures. rewrite analyze_fixture_loop. simpl.
  set (l := omap (analyzed_entry self) _).
  eexists. split; [done|]. rewrite concat_slices. apply pages_of_two.
Qed.

(** ** Page layouts *)

Lemma draw_lines_lookup f step lines y (i : nat) :
  draw_lines f step lines y !! i =
  (λ line, draw_text (10, y + Z.of_nat i * step) line f) <$> lines !! i.
Proof.
  revert y i. induction lines as [|line lines IH]; intros y i; [done|].
  destruct i as [|i]; simpl.
  - do 3 f_equal. lia.
  - rewrite IH. destruct (lines !! i); simpl; [|done]. do 3 f_equal. lia.
Qed.

Lemma length_draw_lines f step lines y :
  length (draw_lines f step lines y) = length lines.
Proof. revert y. induction lines; intros y; simpl; by f_equal. Qed.

(** X9.  The "Most Transferred In" and "Team Strength" pages: the title, then
    one line per selected player or team, at most five, line [i] at
    [y = 45 + 25 i] and so never below 145.  A player's line shows the name
    of the player's team, or "?" when the team id is not in the team
    table. *)
Theorem selector_pages_lines (width : Z) (analyzer : FPLAnalyzer) :
  (∃ body,
     create_transfers_page width analyzer =
       draw_title width "Most Transferred In" ++ body ∧
     (length body ≤ 5)%nat ∧
     length body = length (get_most_transferred analyzer) ∧
     ∀ (i : nat) player,
       get_most_transferred analyzer !! i = Some player →
       ∃ label,
         label = match teams_by_id analyzer !! Player.team player with
                 | Some t => Team.name t
                 | None => "?"%string
                 end ∧
         body !! i =
           Some (draw_text (10, 45 + 25 * Z.of_nat i)
                   (Player.web_name player +:+ " (" +:+ label +:+ "): "
                      +:+ pretty (Player.transfers_in_event player))
                   font16) ∧
         45 + 25 * Z.of_nat i ≤ 145) ∧
  (∃ body,
     create_team_strength_page width analyzer =
       draw_title width "Team Strength" ++ body ∧
     (length body ≤ 5)%nat ∧
     length body = length (get_team_strengths analyzer) ∧
     ∀ (i : nat) t,
       get_team_strengths analyzer !! i = Some t →
       body !! i =
         Some (draw_text (10, 45 + 25 * Z.of_nat i)
                 (Team.name t +:+ ": "
                    +:+ pretty (Team.strength_overall_home t
                                + Team.strength_overall_away t))
                 font18) ∧
       45 + 25 * Z.of_nat i ≤ 145).
Proof.
  split.
  - eexists. split; [reflexivity|].
    rewrite length_draw_lines, length_fmap.
    assert (length (get_most_transferred analyzer) ≤ 5)%nat as Hlen.
    { unfold get_most_transferred. rewrite length_take. lia. }
    split; [done|]. split; [done|].
    intros i player Hi. eexists. split; [reflexivity|].
    apply lookup_lt_Some in Hi as Hlt.
    split; [|lia].
    rewrite draw_lines_lookup, list_lookup_fmap, Hi. simpl.
    unfold transfers_line, team_label.
    destruct (teams_by_id analyzer !! Player.team player); simpl;
      do 3 f_equal; lia.
  - eexists. split; [reflexivity|].
    rewrite length_draw_lines, length_fmap.
    assert (length (get_team_strengths analyzer) ≤ 5)%nat as Hlen.
    { unfold get_team_strengths. rewrite length_take. lia. }
    split; [done|]. split; [done|].
    intros i t Hi. apply lookup_lt_Some in Hi as Hlt.
    split; [|lia].
    rewrite draw_lines_lookup, list_lookup_fmap, Hi. simpl.
    unfold team_strength_line. do 3 f_equal. lia.
Qed.

Lemma selector_pages_lines_witness :
  create_transfers_page 360 Cases.analyzer_transfers =
  [ draw_text (10, 5) "Most Transferred In" font24;
    draw_line 10 35 350 35;
    draw_text (10, 45) "Isak (?): 9000" font16;
    draw_text (10, 70) "Saka (ARS): 5000" font16 ].
Proof.
  destruct (selector_pages_lines 360 Cases.analyzer_transfers)
    as [(body & -> & _ & Hlen & Hlines) _].
  destruct (Hlines 0%nat (Player.mk 2 "Isak" 4 99 (Qc_of_Z 8) 9000 12))
    as (l0 & -> & H0 & _); [reflexivity|].
  destruct (Hlines 1%nat (Player.mk 1 "Saka" 3 1 (Qc_of_Z 7) 5000 9))
    as (l1 & -> & H1 & _); [reflexivity|].
  destruct body as [|op0 [|op1 [|op2 body]]]; try discriminate Hlen.
  simpl in H0, H1. injection H0 as ->. injection H1 as ->. reflexivity.
Defined.

(** X10.  For every standings entry, as the main script does for each
    manager.  When the entry's record for the current gameweek is a stored
    null, the summary raises an AttributeError and no page is drawn.
    Otherwise the summary is produced and its page is the title "Manager: "
    with the entry's name, the rule, and nine text lines in the 16-point
    font at [y = 45 + 22 i], the last at 221; the sixth line shows the
    formation. *)
Theorem manager_page_per_entry
    (width : Z) (format_f : bool → nat → float → string)
    (self : FPLAnalyzer) (manager_data : Manager.t) :
  let stored :=
    Manager.gameweek_data manager_data ≫= (.!! pretty (current_gw self)) in
  (stored = Some None →
   get_manager_details self manager_data = Py.Raise Py.AttributeError) ∧
  (stored ≠ Some None →
   ∃ d body,
     get_manager_details self manager_data = Py.Ok d ∧
     create_manager_page width format_f d =
       draw_title width ("Manager: " +:+ Manager.entry_name manager_data)
       ++ body ∧
     length body = 9%nat ∧
     (∀ (i : nat) op,
        body !! i = Some op →
        ∃ text, op = draw_text (10, 45 + 22 * Z.of_nat i) text font16 ∧
                45 + 22 * Z.of_nat i ≤ 221) ∧
     body !! 5%nat =
       Some (draw_text (10, 155) ("Formation: " +:+ ManagerDetails.formation d)
               font16)).
Proof.
  intros stored. split; [apply get_manager_details_null|].
  intros Hrecord.
  destruct (get_manager_details_top self manager_data Hrecord)
    as (d & Hd & _ & _ & _ & _ & _ & _ & _ & _ & Hname & _).
  exists d. eexists. split; [done|].
  split; [unfold create_manager_page; by rewrite Hname|].
  split; [done|]. split; [|done].
  intros i op. rewrite draw_lines_lookup.
  destruct (manager_lines format_f d !! i) as [text|] eqn:Hi; [|done].
  intros [= <-]. apply lookup_lt_Some in Hi. simpl in Hi.
  exists text. split; [do 2 f_equal; lia|lia].
Qed.

Lemma manager_page_per_entry_witness :
  get_manager_details Sample.analyzer Cases.manager_null_record
  = Py.Raise Py.AttributeError ∧
  ∃ d body,
    get_manager_details Sample.analyzer Sample.me = Py.Ok d ∧
    create_manager_page 360 (λ _ _ _, "x"%string) d =
      draw_title 360 "Manager: 404error.log" ++ body ∧
    length body = 9%nat ∧
    body !! 5%nat = Some (draw_text (10, 155) "Formation: 4-4-2" font16).
Proof.
  split.
  - apply (manager_page_per_entry 360 (λ _ _ _, "x"%string)
             Sample.analyzer Cases.manager_null_record).
    reflexivity.
  - destruct (manager_page_per_entry 360 (λ _ _ _, "x"%string)
                Sample.analyzer Sample.me) as [_ Hdrawn].
    destruct Hdrawn as (d & body & Hd & Hpage & Hlen & _ & Hformation).
    { vm_compute. discriminate. }
    exists d, body. split; [exact Hd|]. split; [exact Hpage|].
    split; [exact Hlen|]. rewrite Hformation.
    vm_compute in Hd. injection Hd as <-. reflexivity.
Defined.

(** X11.  The self-team page follows the analysis: an exception of the analysis
    is the page's exception, and a found team gives the title, the rule and
    fifteen text lines at [y = 45 + 22 i], from "Team: 404error.log" at 45
    down to the success rate at 353. *)
Theorem my_team_page_follows_analysis
    (width : Z) (format_f : bool → nat → float → string) (self : FPLAnalyzer) :
  (∀ e,
     get_my_team_analysis self = Py.Raise e →
     create_my_team_page width format_f self = Py.Raise e) ∧
  (∀ r,
     get_my_team_analysis self = Py.Ok (Some r) →
     ∃ body,
       create_my_team_page width format_f self =
         Py.Ok (draw_title width "My Team Analysis" ++ body) ∧
       length body = 15%nat ∧
       (∀ (i : nat) op,
          body !! i = Some op →
          ∃ text, op = draw_text (10, 45 + 22 * Z.of_nat i) text font16) ∧
       body !! 0%nat = Some (draw_text (10, 45) "Team: 404error.log" font16) ∧
       body !! 2%nat =
         Some (draw_text (10, 89)
                 ("League Pos: " +:+ pretty (MyTeamAnalysis.position r)
                    +:+ " of " +:+ pretty (MyTeamAnalysis.num_teams r))
                 font16) ∧
       body !! 14%nat =
         Some (draw_text (10, 353)
                 ("  Success Rate: "
                    +:+ format_f false 1%nat
                          (MyTeamAnalysis.captain_success_rate r)
                    +:+ "%")
                 font16)).
Proof.
  split.
  - intros e He. unfold create_my_team_page. by rewrite He.
  - intros r Hr.
    assert (MyTeamAnalysis.my_team_name r = my_team_name) as Hname.
    { destruct (Py.next_or_none is_my_team (get_mini_league_standings self))
        as [my_team|] eqn:Hfound.
      - destruct (my_team_analysis_found_eq self my_team Hfound)
          as (leader & position & _ & _ & Heq).
        rewrite Heq in Hr.
        destruct (calculate_gw_average (league_data self) (current_gw self));
          [|done].
        destruct (gw_data_lookup self my_team) as [[record|]|];
          [|done|]; by injection Hr as <-.
      - unfold get_my_team_analysis in Hr. by rewrite Hfound in Hr. }
    exists (draw_lines font16 22 (my_team_lines format_f r) 45).
    split; [unfold create_my_team_page; by rewrite Hr|].
    split; [by rewrite length_draw_lines|].
    split; [|rewrite !draw_lines_lookup; simpl; by rewrite Hname].
    intros i op. rewrite draw_lines_lookup.
    destruct (my_team_lines format_f r !! i) as [text|] eqn:Hi; [|done].
    intros [= <-]. exists text. do 2 f_equal. lia.
Qed.

Lemma my_team_page_follows_analysis_witness :
  ∃ body,
    create_my_team_page 360 (λ _ _ _, "x"%string) Sample.analyzer =
      Py.Ok (draw_title 360 "My Team Analysis" ++ body) ∧
    length body = 15%nat ∧
    body !! 2%nat = Some (draw_text (10, 89) "League Pos: 3 of 3" font16).
Proof.
  destruct (my_team_page_follows_analysis 360 (λ _ _ _, "x"%string)
              Sample.analyzer) as [_ Hfound].
  assert (∃ r, get_my_team_analysis Sample.analyzer = Py.Ok (Some r) ∧
               MyTeamAnalysis.position r = 3 ∧
               MyTeamAnalysis.num_teams r = 3) as (r & Hr & Hpos & Hn).
  { eexists. split; [vm_compute; reflexivity|]. split; reflexivity. }
  destruct (Hfound r Hr) as (body & Hpage & Hlen & _ & _ & Hline & _).
  exists body. split; [exact Hpage|]. split; [exact Hlen|].
  rewrite Hline, Hpos, Hn. reflexivity.
Defined.

Lemma draw_fixtures_layout format_f chunk y :
  length (draw_fixtures format_f chunk y) = (4 * length chunk)%nat ∧
  Forall (text_within y (y + 100 * Z.of_nat (length chunk) - 35))
    (draw_fixtures format_f chunk y).
Proof.
  revert y. induction chunk as [|fixture chunk IH]; intros y; simpl.
  - split; [done|constructor].
  - destruct (IH (y + 20 + 25 + 20 + 35)) as [Hlen Hall].
    split; [simpl; lia|].
    repeat (constructor; [simpl; lia|]).
    eapply Forall_impl; [exact Hall|].
    intros [[x y'] text f|]; simpl; lia.
Qed.

(** X12.  The fixture pages are drawn without an error, one image per page of the
    analysis.  Image [i] is titled "GW<next> Fixtures (<i+1>/<pages>)" and
    has four text lines per fixture of its page, all with [y] between 45
    and 210. *)
Theorem fixture_pages_rendered
    (width : Z) (format_f : bool → nat → float → string) (self : FPLAnalyzer) :
  ∃ pages images,
    analyze_fixtures self = Py.Ok pages ∧
    create_fixtures_pages width format_f self = Py.Ok images ∧
    length images = length pages ∧
    ∀ (i : nat) chunk,
      pages !! i = Some chunk →
      ∃ body,
        images !! i =
          Some (draw_title width
                  ("GW" +:+ pretty (current_gw self + 1) +:+ " Fixtures ("
                     +:+ pretty (i + 1)%nat +:+ "/" +:+ pretty (length pages)
                     +:+ ")")
                ++ body) ∧
        length body = (4 * length chunk)%nat ∧
        Forall (text_within 45 210) body.
Proof.
  unfold create_fixtures_pages, analyze_fixtures.
  rewrite analyze_fixture_loop. simpl.
  set (l := omap (analyzed_entry self) _).
  set (pages := (λ i, Py.slice l i (i + 2)) <$> Py.range_step (length l) 2).
  destruct (pages_of_two l) as [_ Hpages]. fold pages in Hpages.
  eexists _, _. split; [reflexivity|]. split; [reflexivity|].
  split; [by rewrite length_imap|].
  intros i chunk Hi. rewrite list_lookup_imap, Hi. simpl.
  eexists. split; [reflexivity|].
  destruct (Hpages i chunk Hi) as (_ & Hlen & _).
  destruct (draw_fixtures_layout format_f chunk 45) as [Hn Hall].
  split; [done|].
  eapply Forall_impl; [exact Hall|].
  intros [[x y'] text f|]; simpl; lia.
Qed.

Lemma fixture_pages_rendered_witness :
  ∃ images,
    create_fixtures_pages 360 (λ _ _ _, "x"%string) Sample.analyzer
      = Py.Ok images ∧
    length images = 1%nat ∧
    ∃ body,
      images !! 0%nat =
        Some (draw_title 360 "GW8 Fixtures (1/1)" ++ body) ∧
      length body = 4%nat.
Proof.
  destruct (fixture_pages_rendered 360 (λ _ _ _, "x"%string) Sample.analyzer)
    as (pages & images & Hpages & Himages & Hlen & Hall).
  vm_compute in Hpages. injection Hpages as <-.
  exists images. split; [exact Himages|]. split; [exact Hlen|].
  destruct (Hall 0%nat _ eq_refl) as (body & Hbody & Hn & _).
  exists body. split; [exact Hbody|exact Hn].
Defined.

(** ** From the collection run to the analysis *)

Lemma fetch_fixtures_filter all gw :
  fetch_fixtures all gw =
  filter (λ f, ApiFixture.event f = Some gw) (default [] all).
Proof. unfold fetch_fixtures. by destruct all as [[|f l]|]. Qed.

Lemma load_data_of_current_gameweek pd ld g :
  get_current_gameweek pd = Some g →
  ∃ a, load_data pd ld = Py.Ok a ∧ current_gw a = g ∧ player_data a = pd.
Proof.
  unfold get_current_gameweek, load_data. rewrite first_current_next.
  destruct (Bootstrap.events pd) as [events|]; simpl; [|done].
  destruct (Py.next_or_none _ events) as [ev|]; simpl; [|done].
  intros [= <-]. by eexists.
Qed.

(** X13.  Whatever a collection run saves, the analysis loads: the bootstrap it
    wrote has a current event, the analyzer resolves the very gameweek the
    league data was retrieved for, players, teams and events are the fetched
    ones, and the fixtures the analyzer will read are exactly the fetched
    fixtures scheduled for the next gameweek, in their order (an unscheduled
    fixture is never among them). *)
Theorem saved_documents_load
    (fetch_bootstrap_data : option Bootstrap.t)
    (fetch_all_fixtures : option (list ApiFixture.t))
    (retrieve_mini_league_data : Z → Z → option League.t)
    (pd : Bootstrap.t) (ld : League.t) :
  main fetch_bootstrap_data fetch_all_fixtures retrieve_mini_league_data
    = Saved pd ld →
  ∃ fetched g a,
    fetch_bootstrap_data = Some fetched ∧
    get_current_gameweek fetched = Some g ∧ g ≠ 0 ∧
    retrieve_mini_league_data LEAGUE_ID g = Some ld ∧
    load_data pd ld = Py.Ok a ∧ current_gw a = g ∧
    Bootstrap.elements pd = Bootstrap.elements fetched ∧
    Bootstrap.teams pd = Bootstrap.teams fetched ∧
    Bootstrap.events pd = Bootstrap.events fetched ∧
    default [] (Bootstrap.fixtures_next_gw (player_data a)) =
      ApiFixture.to_fixture <$>
        filter (λ f, ApiFixture.event f = Some (g + 1))
          (default [] fetch_all_fixtures).
Proof.
  unfold main. intros Hmain.
  destruct fetch_bootstrap_data as [fetched|]; [|done].
  destruct (get_current_gameweek fetched) as [g|] eqn:Hgw; [|done].
  case_decide as Hzero; [done|].
  destruct (retrieve_mini_league_data LEAGUE_ID g) as [league|] eqn:Hleague;
    [|done].
  injection Hmain as <- <-.
  set (pd := Bootstrap.mk _ _ _ _).
  destruct (load_data_of_current_gameweek pd league g) as (a & Ha & Hg & Hpd).
  { unfold get_current_gameweek in *. by subst pd. }
  exists fetched, g, a. repeat split; try done.
  by rewrite Hpd, <-fetch_fixtures_filter.
Qed.

Lemma saved_documents_load_witness :
  ∃ pd a,
    main (Some Cases.bootstrap_transfers) (Some Cases.all_fixtures)
      (λ _ _, Some Sample.league) = Saved pd Sample.league ∧
    load_data pd Sample.league = Py.Ok a ∧ current_gw a = 7 ∧
    default [] (Bootstrap.fixtures_next_gw (player_data a))
      = [ Fixture.mk 1 2; Fixture.mk 2 1 ].
Proof.
  eexists.
  assert (∀ pd, main (Some Cases.bootstrap_transfers) (Some Cases.all_fixtures)
                  (λ _ _, Some Sample.league) = Saved pd Sample.league →
                ∃ a, load_data pd Sample.league = Py.Ok a ∧ current_gw a = 7 ∧
                     default [] (Bootstrap.fixtures_next_gw (player_data a))
                     = [ Fixture.mk 1 2; Fixture.mk 2 1 ]) as Hall.
  { intros pd Hsaved.
    destruct (saved_documents_load _ _ _ _ _ Hsaved)
      as (fetched & g & a & [= <-] & [= <-] & _ & _ & Ha & Hg & _ & _ & _ & Hf).
    exists a. split; [exact Ha|]. split; [exact Hg|]. rewrite Hf. reflexivity. }
  destruct (Hall _ eq_refl) as (a & Ha & Hg & Hf).
  exists a. split; [reflexivity|]. split; [exact Ha|]. split; [exact Hg|exact Hf].
Defined.

(** X14.  A current event with id 0 stops the collection run with the "could not
    determine" message, because the id is tested for truth, while the
    analysis loads the same bootstrap and resolves gameweek 0. *)
Theorem collector_rejects_gameweek_zero
    (fetch_all_fixtures : option (list ApiFixture.t))
    (retrieve_mini_league_data : Z → Z → option League.t)
    (fetched : Bootstrap.t) (ld : League.t) :
  get_current_gameweek fetched = Some 0 →
  main (Some fetched) fetch_all_fixtures retrieve_mini_league_data
    = Failed "Error: Could not determine current gameweek." ∧
  ∃ a, load_data fetched ld = Py.Ok a ∧ current_gw a = 0.
Proof.
  intros Hgw. split.
  - unfold main. by rewrite Hgw.
  - destruct (load_data_of_current_gameweek fetched ld 0 Hgw) as (a & ? & ? & _).
    by exists a.
Qed.

Lemma collector_rejects_gameweek_zero_witness :
  main (Some Cases.bootstrap_gw0) None (λ _ _, Some Cases.league_gw0)
    = Failed "Error: Could not determine current gameweek." ∧
  ∃ a, load_data Cases.bootstrap_gw0 Cases.league_gw0 = Py.Ok a ∧
       current_gw a = 0.
Proof.
  apply (collector_rejects_gameweek_zero None (λ _ _, Some Cases.league_gw0)
           Cases.bootstrap_gw0 Cases.league_gw0).
  reflexivity.
Defined.

(** ** The captain line, from the bootstrap players *)

Lemma loaded_tables pd ld a :
  load_data pd ld = Py.Ok a →
  let players := default [] (Bootstrap.elements pd) in
  player_id_to_name a = dict_of Player.id Player.web_name players ∧
  player_id_to_points a = dict_of Player.id Player.event_points players.
Proof.
  unfold load_data. intros Hload. repeat case_match; try done.
  by injection Hload as <-.
Qed.

(** X15.  After loading, the summary's captain is read from the bootstrap
    players: with distinct player ids, the first flagged pick of a player
    [p] shows [p]'s name and [p]'s gameweek points times the pick's
    multiplier; a flagged pick whose player id no bootstrap player has shows
    "Unknown" with 0 points. *)
Theorem captain_read_from_players
    (pd : Bootstrap.t) (ld : League.t) (a : FPLAnalyzer)
    (manager_data : Manager.t) (pre : list Pick.t) (c : Pick.t)
    (post : list Pick.t) :
  let players := default [] (Bootstrap.elements pd) in
  load_data pd ld = Py.Ok a →
  default [] (gw_data_of a manager_data ≫= GwData.picks) = pre ++ c :: post →
  Forall (λ p, is_captain p = false) pre →
  is_captain c = true →
  ∃ d,
    get_manager_details a manager_data = Py.Ok d ∧
    (NoDup (Player.id <$> players) →
     ∀ p, p ∈ players → Player.id p = Pick.element c →
       ManagerDetails.captain_name d = Player.web_name p ∧
       ManagerDetails.captain_points d
         = Player.event_points p * Pick.multiplier c) ∧
    ((∀ p, p ∈ players → Player.id p ≠ Pick.element c) →
     ManagerDetails.captain_name d = "Unknown"%string ∧
     ManagerDetails.captain_points d = 0).
Proof.
  intros players Hload Hpicks Hpre Hc.
  destruct (loaded_tables pd ld a Hload) as [Hnames Hpoints].
  fold players in Hnames, Hpoints.
  assert (¬ record_is_null (current_gw a) manager_data) as Hrecord.
  { intros Hnull. unfold gw_data_of, gw_data_lookup in Hpicks.
    rewrite Hnull in Hpicks. by destruct pre. }
  destruct (get_manager_details_ok a manager_data Hrecord)
    as (d & Hd & Hcp & _).
  destruct (get_manager_details_top a manager_data Hrecord)
    as (d' & Hd' & _ & _ & _ & _ & _ & _ & Hcn & _).
  rewrite Hd in Hd'. injection Hd' as <-.
  rewrite Hpicks, (next_or_none_first is_captain pre c post) in Hcp, Hcn
    by done.
  unfold get_or in Hcp, Hcn. simpl in Hcp, Hcn.
  rewrite Hpoints, dict_of_lookup in Hcp. rewrite Hnames, dict_of_lookup in Hcn.
  exists d. split; [done|]. split.
  - intros Hnodup p Hin Hid.
    assert (last (filter (λ x, Player.id x = Pick.element c) players) = Some p)
      as Hlast.
    { apply last_filter_unique; [done..|]. intros q Hq Hqid.
      apply (NoDup_fmap_elem_inj Player.id players); [done..|congruence]. }
    rewrite Hlast in Hcp, Hcn. by simpl in *.
  - intros Hnone.
    rewrite (filter_none (λ x, Player.id x = Pick.element c) players)
      in Hcp, Hcn by (by apply Forall_forall).
    simpl in *. split; [done|lia].
Qed.

Lemma captain_read_from_players_witness :
  ∃ d,
    get_manager_details Sample.analyzer Sample.me = Py.Ok d ∧
    ManagerDetails.captain_name d = "P"%string ∧
    ManagerDetails.captain_points d = 5 * 2.
Proof.
  destruct (captain_read_from_players Sample.bootstrap Sample.league
              Sample.analyzer Sample.me
              (take 9 (Sample.squad 10 2)) (Pick.mk 10 10 (Some true) 2)
              (drop 10 (Sample.squad 10 2)))
    as (d & Hd & Hknown & _).
  - reflexivity.
  - reflexivity.
  - by_evaluation.
  - reflexivity.
  - exists d. split; [exact Hd|].
    apply (Hknown ltac:(by_evaluation) (Sample.player 10 4 5));
      [|reflexivity].
    apply list_elem_of_lookup. by exists 9%nat.
Defined.
